(** * OctoShare: the mutual-TLS file server of [src/server.js]

    A shallow embedding of the four Express routes of [server.js]
    (upload, list, download, delete) together with the pieces of the
    JavaScript and Node.js run time they call: [String.prototype.includes],
    template literals over numbers, [path.join] (POSIX flavour), the
    synchronous [fs] calls, [multer]'s disk storage and [res.download].

    Handlers are functions from the request, the disk and the I/O faults of
    the environment to a response, the list of effects they performed and
    the resulting disk. *)

From Stdlib Require Import ZArith Bool List Lia Ascii String DecimalString DecimalZ.
From stdpp Require Import base gmap strings list.

Local Open Scope Z_scope.

#[local] Arguments String.append : simpl nomatch.

(** ** JavaScript strings *)

Module Js.

(** [s.includes(sub)]: [sub] occurs in [s] at some position. *)
Fixpoint includes (s sub : string) : bool :=
  String.prefix sub s ||
  match s with
  | EmptyString => false
  | String _ rest => includes rest sub
  end.

(** [s.split("/")]: the pieces between the separators, empty ones kept. *)
Fixpoint split_sep (s : string) : list string :=
  match s with
  | EmptyString => [""]
  | String c rest =>
      if Ascii.eqb c "/"%char then "" :: split_sep rest
      else match split_sep rest with
           | seg :: segs => String c seg :: segs
           | [] => [String c ""]
           end
  end.

(** [s.charCodeAt(s.length - 1) === 47]. *)
Fixpoint ends_with_sep (s : string) : bool :=
  match s with
  | EmptyString => false
  | String c EmptyString => Ascii.eqb c "/"%char
  | String _ rest => ends_with_sep rest
  end.

(** A number inside a template literal: its decimal digits, with a leading
    minus sign below zero (integers in the safe range, which is where
    [Date.now()] and [Array.length] live). *)
Definition number_to_string (n : Z) : string :=
  NilEmpty.string_of_int (Z.to_int n).

(** A possibly [undefined] string inside a template literal. *)
Definition template (v : option string) : string :=
  match v with
  | Some s => s
  | None => "undefined"
  end.

(** [v || fallback] for a possibly [undefined] string: the empty string is
    falsy as well. *)
Definition or_else (v : option string) (fallback : string) : string :=
  match v with
  | Some s => if String.eqb s "" then fallback else s
  | None => fallback
  end.

(** Every character of [s] satisfies [P]. *)
Fixpoint all_chars (P : ascii -> bool) (s : string) : bool :=
  match s with
  | EmptyString => true
  | String c rest => P c && all_chars P rest
  end.

Definition is_digit (c : ascii) : bool :=
  match c with
  | "0" | "1" | "2" | "3" | "4" | "5" | "6" | "7" | "8" | "9" => true
  | _ => false
  end%char.

Definition digit_or_dash (c : ascii) : bool := is_digit c || Ascii.eqb c "-".

End Js.

(** ** Node's [path] module, POSIX flavour *)

Module Path.

(** One step of [normalizeString]: [res] holds the segments kept so far,
    the last one first. Empty and ["."] segments are dropped, [".."] removes
    the last kept segment; when there is none (or it is itself [".."]) the
    [".."] is kept only if the path may climb above its start. *)
Definition push_segment (allowAboveRoot : bool) (res : list string)
    (seg : string) : list string :=
  if String.eqb seg "" || String.eqb seg "." then res
  else if String.eqb seg ".." then
    match res with
    | top :: below =>
        if String.eqb top ".." then (if allowAboveRoot then ".." :: res else res)
        else below
    | [] => if allowAboveRoot then [".."] else []
    end
  else seg :: res.

Definition normalize_segments (allowAboveRoot : bool) (path : string)
    : list string :=
  rev (fold_left (push_segment allowAboveRoot) (Js.split_sep path) []).

Definition normalizeString (path : string) (allowAboveRoot : bool) : string :=
  String.concat "/" (normalize_segments allowAboveRoot path).

Definition isAbsolute (path : string) : bool := String.prefix "/" path.

(** [path.posix.normalize]. *)
Definition normalize (path : string) : string :=
  if String.eqb path "" then "."
  else
    let trailingSeparator := Js.ends_with_sep path in
    let p := normalizeString path (negb (isAbsolute path)) in
    if String.eqb p "" then
      (if isAbsolute path then "/" else if trailingSeparator then "./" else ".")
    else
      (if isAbsolute path then "/" else "") +:+ p +:+
      (if trailingSeparator then "/" else "").

(** [path.posix.join(...args)]: the non-empty arguments glued with ["/"],
    then normalized. *)
Definition join (args : list string) : string :=
  match List.filter (fun a => negb (String.eqb a "")) args with
  | [] => "."
  | parts => normalize (String.concat "/" parts)
  end.

(** The directory entries an absolute path walks through, as the operating
    system resolves it lexically. *)
Definition resolve (path : string) : list string :=
  normalize_segments false path.

Fixpoint starts_with (pre l : list string) : bool :=
  match pre, l with
  | [], _ => true
  | p :: pre', x :: l' => String.eqb p x && starts_with pre' l'
  | _ :: _, [] => false
  end.

(** [within root p]: [p] denotes [root] itself or something below it. *)
Definition within (root p : string) : bool :=
  starts_with (resolve root) (resolve p).

(** [path.posix.basename(path)]: the last non-empty piece, trailing
    separators aside; empty when there is none. *)
Definition basename (path : string) : string :=
  List.last (List.filter (fun seg => negb (String.eqb seg "")) (Js.split_sep path)) "".

(** A segment without separator: splitting leaves it whole. *)
Definition atom (seg : string) : Prop := Js.split_sep seg = [seg].

(** The segments [normalizeString] keeps when it meets them. *)
Definition kept (seg : string) : bool :=
  negb (String.eqb seg "" || String.eqb seg ".").

(** What the stack of an absolute path holds: real entry names. *)
Definition entry (seg : string) : Prop :=
  atom seg /\ kept seg = true /\ seg <> "..".

End Path.

(** ** The disk and Node's [fs] module *)

Inductive node :=
| RegularFile (content : list Byte.byte)
| Directory.

(** The disk maps the entries of an absolute path to what is stored there. *)
Abbreviation disk := (gmap (list string) node).

(** What the environment may do to an I/O call, per path: refuse a write,
    an unlink or a directory read, or break a transfer ([Some headersSent]). *)
Record io_faults := {
  write_fault : string -> bool;
  unlink_fault : string -> bool;
  readdir_fault : string -> bool;
  send_fault : string -> option bool
}.

Module Fs.

(** What a path names: a regular file cannot be named with a trailing
    separator. *)
Definition stat (d : disk) (p : string) : option node :=
  match d !! Path.resolve p with
  | Some (RegularFile c) =>
      if Js.ends_with_sep p then None else Some (RegularFile c)
  | other => other
  end.

(** [fs.existsSync(p)]: true for files and for directories alike. *)
Definition existsSync (d : disk) (p : string) : bool :=
  match stat d p with
  | Some _ => true
  | None => false
  end.

(** [fs.unlinkSync(p)]: [None] when it throws (nothing there, a directory,
    or a fault of the environment). *)
Definition unlinkSync (io : io_faults) (d : disk) (p : string) : option disk :=
  match stat d p with
  | Some (RegularFile _) =>
      if unlink_fault io p then None else Some (delete (Path.resolve p) d)
  | _ => None
  end.

Fixpoint strip_prefix (pre l : list string) : option (list string) :=
  match pre, l with
  | [], _ => Some l
  | p :: pre', x :: l' => if String.eqb p x then strip_prefix pre' l' else None
  | _ :: _, [] => None
  end.

Definition child_of (dir entry : list string) : option string :=
  match strip_prefix dir entry with
  | Some [name] => Some name
  | _ => None
  end.

(** [fs.readdirSync(p)]: the names directly in the directory, [None] when it
    throws (not a directory, or a fault). *)
Definition readdirSync (io : io_faults) (d : disk) (p : string)
    : option (list string) :=
  match d !! Path.resolve p with
  | Some Directory =>
      if readdir_fault io p then None
      else Some (omap (child_of (Path.resolve p)) (map_to_list d).*1)
  | _ => None
  end.

(** Writing a new file through a stream, as multer's disk storage does:
    the parent must be a directory and the target must not be one. *)
Definition writeFile (io : io_faults) (d : disk) (p : string)
    (content : list Byte.byte) : option disk :=
  match d !! removelast (Path.resolve p), d !! Path.resolve p with
  | Some Directory, Some Directory => None
  | Some Directory, _ =>
      if write_fault io p || Js.ends_with_sep p then None
      else Some (<[Path.resolve p := RegularFile content]> d)
  | _, _ => None
  end.

End Fs.

(** ** Requests, replies and effects *)

(** [req.socket.getPeerCertificate()]: nothing at all, or an object whose
    [subject] may be missing ([{}] when the peer sent no certificate), whose
    [CN] may in turn be missing or empty. *)
Record subject_t := { CN : option string }.
Record certificate := { subject : option subject_t }.

(** [clientCert && clientCert.subject]. *)
Definition cert_subject (clientCert : option certificate) : option subject_t :=
  match clientCert with
  | Some c => subject c
  | None => None
  end.

Inductive fs_call :=
| ExistsSync (p : string)
| UnlinkSync (p : string)
| ReaddirSync (p : string)
| WriteStream (p : string)
| ReadStream (p : string).

Definition fs_call_path (c : fs_call) : string :=
  match c with
  | ExistsSync p | UnlinkSync p | ReaddirSync p | WriteStream p | ReadStream p => p
  end.

Inductive effect :=
| FsCall (c : fs_call)
| ConsoleLog (line : string)
| ConsoleError (line : string).

Inductive body :=
| Send (text : string)
| Json (fields : list (string * string))
| JsonArray (items : list string)
| Attachment (name : string) (content : list Byte.byte)
| Truncated (name : string)
| NextError.

Record response := { status : Z; payload : body }.

Record outcome := {
  reply : response;
  effects : list effect;
  disk_after : disk
}.

(** The file system calls and the console lines among the effects. *)
Definition fs_calls (es : list effect) : list fs_call :=
  omap (fun e => match e with FsCall c => Some c | _ => None end) es.

Definition console_lines (es : list effect) : list string :=
  omap (fun e => match e with
                 | ConsoleLog l | ConsoleError l => Some l
                 | FsCall _ => None
                 end) es.

(** The audit trail of a request is what it wrote to the console: one line
    starting with [tag], or nothing at all. *)
Definition audited (tag : string) (o : outcome) : Prop :=
  exists line, console_lines (effects o) = [line] /\ String.prefix tag line = true.

Definition unaudited (o : outcome) : Prop := console_lines (effects o) = [].

(** [req.file] as multer fills it in. *)
Record multer_file := {
  originalname : string;
  filename : string;
  path : string;
  size : Z
}.

(** ** What multer's parser does to a file part *)

Module Multer.

Definition is_slash (c : ascii) : bool :=
  Ascii.eqb c "/" || Ascii.eqb c "\".

Definition no_slash (c : ascii) : bool := negb (is_slash c).

(** The text after the last slash or backslash, when there is one. *)
Fixpoint after_last_slash (s : string) : option string :=
  match s with
  | EmptyString => None
  | String c rest =>
      match after_last_slash rest with
      | Some tail => Some tail
      | None => if is_slash c then Some rest else None
      end
  end.

(** busboy's [basename], applied to the file name of a part since
    [preservePath] is not set: the directory part goes, and what is left
    counts as no name when it is [.] or [..]. *)
Definition basename (path : string) : string :=
  let base := match after_last_slash path with
              | Some tail => tail
              | None => path
              end in
  if String.eqb base ".." || String.eqb base "." then "" else base.

(** The [file] event of multer: a part without file name is skipped
    ([if (!filename) return fileStream.resume()]), otherwise the file goes to
    the storage with [originalname] the base name. The argument is the file
    name the client put into the part, with the bytes of the part. *)
Definition accept (sent : option (string * list Byte.byte))
    : option (string * list Byte.byte) :=
  match sent with
  | Some (name, content) =>
      let originalname := basename name in
      if String.eqb originalname "" then None else Some (originalname, content)
  | None => None
  end.

End Multer.

(** ** [server.js] *)

Section Server.

(** [__dirname], the directory of [server.js]. *)
Variable dirname : string.

Definition KEYS_PATH : string := Path.join [dirname; ".."; ".."; "infra"; "openssl"].
Definition UPLOAD_PATH : string := Path.join [dirname; ".."; ".."; "uploads"].

(** [storage]: the two callbacks of [multer.diskStorage]. *)
Definition storage_destination : string := UPLOAD_PATH.

Definition storage_filename (now : Z) (originalname : string) : string :=
  Js.number_to_string now +:+ "-" +:+ originalname.

(** [upload.single('secureFile')], from the part multer accepted
    ([Multer.accept]: the name is [file.originalname]): without a file part
    [req.file] stays undefined; with one, the part is written to
    [path.join(destination, filename)] before the route's handler runs.
    [None] when the write fails: multer then hands the error to Express and
    the handler is never called. *)
Definition upload_single (io : io_faults) (d : disk) (now : Z)
    (part : option (string * list Byte.byte))
    : option (option multer_file * list effect * disk) :=
  match part with
  | None => Some (None, [], d)
  | Some (original, content) =>
      let name := storage_filename now original in
      let finalPath := Path.join [storage_destination; name] in
      match Fs.writeFile io d finalPath content with
      | Some d' =>
          Some (Some {| originalname := original; filename := name;
                        path := finalPath;
                        size := Z.of_nat (length content) |},
                [FsCall (WriteStream finalPath)], d')
      | None => None
      end
  end.

(** The handler of [app.post('/upload', ...)]. *)
Definition upload_handler (d : disk) (file : option multer_file)
    (clientCert : option certificate) : outcome :=
  match file with
  | None =>
      {| reply := {| status := 400; payload := Send "No file uploaded." |};
         effects := []; disk_after := d |}
  | Some f =>
      match cert_subject clientCert with
      | Some subj =>
          let clientIdentifier := Js.or_else (CN subj) "Unknown Client" in
          {| reply := {| status := 200;
                         payload := Json [("message", "File uploaded securely!");
                                          ("filename", filename f);
                                          ("clientCN", clientIdentifier)] |};
             effects := [ConsoleLog ("[UPLOAD] File uploaded by secure client. CN: "
                                     +:+ clientIdentifier)];
             disk_after := d |}
      | None =>
          {| reply := {| status := 401;
                         payload := Send "Unauthorized access (mTLS handshake failed)." |};
             effects := []; disk_after := d |}
      end
  end.

(** The whole upload route: the multer middleware, then the handler. A
    failed write ends in Express's default error handler: a 500 that
    [server.js] does not produce itself, and one [console.error] with the
    stack of the error (unless [NODE_ENV] is [test]), of which only the
    leading name of the error is kept here. *)
Definition upload_route (io : io_faults) (d : disk) (now : Z)
    (part : option (string * list Byte.byte))
    (clientCert : option certificate) : outcome :=
  match upload_single io d now part with
  | Some (file, written, d') =>
      let o := upload_handler d' file clientCert in
      {| reply := reply o; effects := written ++ effects o;
         disk_after := disk_after o |}
  | None =>
      {| reply := {| status := 500; payload := NextError |};
         effects := [FsCall (WriteStream
                       (Path.join [storage_destination;
                                   storage_filename now
                                     (match part with Some (n, _) => n | None => "" end)]));
                     ConsoleError "Error:"];
         disk_after := d |}
  end.

(** [app.get('/files', ...)]. *)
Definition list_route (io : io_faults) (d : disk)
    (clientCert : option certificate) : outcome :=
  match cert_subject clientCert with
  | None =>
      {| reply := {| status := 401;
                     payload := Send "Unauthorized. mTLS client identity required to list files." |};
         effects := []; disk_after := d |}
  | Some subj =>
      match Fs.readdirSync io d UPLOAD_PATH with
      | Some files =>
          {| reply := {| status := 200; payload := JsonArray files |};
             effects := [FsCall (ReaddirSync UPLOAD_PATH);
                         ConsoleLog ("[LIST] Client " +:+ Js.template (CN subj)
                                     +:+ " listed "
                                     +:+ Js.number_to_string (Z.of_nat (length files))
                                     +:+ " files.")];
             disk_after := d |}
      | None =>
          {| reply := {| status := 500;
                         payload := Json [("error", "Failed to read upload directory.")] |};
             effects := [FsCall (ReaddirSync UPLOAD_PATH);
                         ConsoleError "Error reading upload directory:"];
             disk_after := d |}
      end
  end.

(** [res.download(filePath, filename, callback)] together with its callback:
    the file is streamed as an attachment named, in [Content-Disposition],
    by the base name of [filename || filePath]; when that fails before the
    headers went out the callback answers 500, afterwards it can only leave
    the reply cut. [send_fault] stands for every error the transfer reports
    to the callback, the refusal to send a file whose name starts with a dot
    included. *)
Definition res_download (io : io_faults) (d : disk) (filePath name : string)
    : response :=
  let shown := Path.basename (if String.eqb name "" then filePath else name) in
  match Fs.stat d filePath with
  | Some (RegularFile content) =>
      match send_fault io filePath with
      | None => {| status := 200; payload := Attachment shown content |}
      | Some true => {| status := 200; payload := Truncated shown |}
      | Some false =>
          {| status := 500; payload := Send "Could not complete the download." |}
      end
  | _ => {| status := 500; payload := Send "Could not complete the download." |}
  end.

(** [app.get('/download/:filename', ...)]. *)
Definition download_route (io : io_faults) (d : disk) (filename : string)
    (clientCert : option certificate) : outcome :=
  if Js.includes filename ".." then
    {| reply := {| status := 400; payload := Send "Invalid filename provided." |};
       effects := []; disk_after := d |}
  else
    let filePath := Path.join [UPLOAD_PATH; filename] in
    match cert_subject clientCert with
    | Some subj =>
        if Fs.existsSync d filePath then
          {| reply := res_download io d filePath filename;
             effects := [FsCall (ExistsSync filePath);
                         ConsoleLog ("[DOWNLOAD] Client " +:+ Js.template (CN subj)
                                     +:+ " downloading file: " +:+ filename);
                         FsCall (ReadStream filePath)];
             disk_after := d |}
        else
          {| reply := {| status := 404; payload := Send "File not found." |};
             effects := [FsCall (ExistsSync filePath)]; disk_after := d |}
    | None =>
        {| reply := {| status := 401;
                       payload := Send "Unauthorized. mTLS client identity required." |};
           effects := []; disk_after := d |}
    end.

(** [app.delete('/files/:filename', ...)]. *)
Definition delete_route (io : io_faults) (d : disk) (filename : string)
    (clientCert : option certificate) : outcome :=
  if Js.includes filename ".." then
    {| reply := {| status := 400;
                   payload := Json [("error", "Invalid filename provided.")] |};
       effects := []; disk_after := d |}
  else
    let filePath := Path.join [UPLOAD_PATH; filename] in
    match cert_subject clientCert with
    | None =>
        {| reply := {| status := 401;
                       payload := Send "Unauthorized. mTLS client identity required for deletion." |};
           effects := []; disk_after := d |}
    | Some subj =>
        if Fs.existsSync d filePath then
          match Fs.unlinkSync io d filePath with
          | Some d' =>
              {| reply := {| status := 200;
                             payload := Json [("message", "File " +:+ filename
                                                          +:+ " deleted successfully.")] |};
                 effects := [FsCall (ExistsSync filePath);
                             FsCall (UnlinkSync filePath);
                             ConsoleLog ("[DELETE] Client " +:+ Js.template (CN subj)
                                         +:+ " deleted file: " +:+ filename)];
                 disk_after := d' |}
          | None =>
              {| reply := {| status := 500;
                             payload := Json [("error",
                               "Failed to delete file from disk. Check server permissions.")] |};
                 effects := [FsCall (ExistsSync filePath);
                             FsCall (UnlinkSync filePath);
                             ConsoleError "Error deleting file:"];
                 disk_after := d |}
          end
        else
          {| reply := {| status := 404; payload := Json [("error", "File not found.")] |};
             effects := [FsCall (ExistsSync filePath)]; disk_after := d |}
    end.

End Server.

(** ** Start-up, the health check and the dispatch of requests *)

(** What the environment may do to the two file system calls of the
    start-up code. *)
Record boot_faults := {
  read_fault : string -> bool;
  mkdir_fault : string -> bool
}.

Module FsBoot.

(** [fs.readFileSync(p)]: the content of a regular file, [None] when it
    throws. *)
Definition readFileSync (bf : boot_faults) (d : disk) (p : string)
    : option (list Byte.byte) :=
  match Fs.stat d p with
  | Some (RegularFile content) => if read_fault bf p then None else Some content
  | _ => None
  end.

(** [fs.mkdirSync(p)], not recursive: [None] when it throws (something is
    there already, the parent is no directory, or a fault). *)
Definition mkdirSync (bf : boot_faults) (d : disk) (p : string) : option disk :=
  match d !! Path.resolve p, d !! removelast (Path.resolve p) with
  | None, Some Directory =>
      if mkdir_fault bf p then None
      else Some (<[Path.resolve p := Directory]> d)
  | _, _ => None
  end.

End FsBoot.

(** [sslOptions]. *)
Record ssl_options := {
  key : list Byte.byte;
  cert : list Byte.byte;
  requestCert : bool;
  rejectUnauthorized : bool;
  ca : list Byte.byte
}.

(** How the top level of [server.js] ends: [process.exit(code)], an
    exception nobody catches, or the call of [listen]. *)
Inductive boot_result :=
| Exit (code : Z) (console : list effect)
| Throw (console : list effect)
| Listen (port : Z) (options : ssl_options) (console : list effect) (d : disk).

Definition PORT : Z := 3000.

(** [app.get('/', ...)], the health check. *)
Definition root_route (d : disk) (clientCert : option certificate) : outcome :=
  let message := "Secure Server is running successfully." in
  let message :=
    match cert_subject clientCert with
    | Some subj =>
        message +:+ " You are authenticated via mTLS as: " +:+ Js.template (CN subj)
    | None => message
    end in
  {| reply := {| status := 200;
                 payload := Send ("<h1>" +:+ message +:+
                                  "</h1><p>Endpoints: /upload, /download, /files, /delete</p>") |};
     effects := []; disk_after := d |}.

(** The requests the application has a route for; the time of a Put is what
    [Date.now()] gives while multer names the file. *)
Inductive request :=
| PostUpload (now : Z) (part : option (string * list Byte.byte))
| GetFiles
| GetDownload (filename : string)
| DeleteFiles (filename : string)
| GetRoot.

Section Application.

Variable dirname : string.

(** The top level of the module, from the PKI files to [listen]. The text
    of a caught error object is left out of the console line. *)
Definition startup (bf : boot_faults) (d : disk) : boot_result :=
  let pki_error :=
    Exit 1 [ConsoleError "âŒ PKI FILE ERROR: Failed to read essential PKI files.";
            ConsoleError ("Ensure all files (server-key.pem, server-cert.pem, ca-cert.pem) exist in: "
                          +:+ KEYS_PATH dirname);
            ConsoleError "Details:"] in
  match FsBoot.readFileSync bf d (Path.join [KEYS_PATH dirname; "server-key.pem"]) with
  | None => pki_error
  | Some serverKey =>
      match FsBoot.readFileSync bf d (Path.join [KEYS_PATH dirname; "server-cert.pem"]) with
      | None => pki_error
      | Some serverCert =>
          match FsBoot.readFileSync bf d (Path.join [KEYS_PATH dirname; "ca-cert.pem"]) with
          | None => pki_error
          | Some caCert =>
              let sslOptions :=
                {| key := serverKey; cert := serverCert; requestCert := true;
                   rejectUnauthorized := true; ca := caCert |} in
              let listening :=
                [ConsoleLog ("âœ… Secure server running on https://localhost:"
                             +:+ Js.number_to_string PORT);
                 ConsoleLog "ðŸ”’ PKI Integration Enabled (Mutual TLS)."] in
              if Fs.existsSync d (UPLOAD_PATH dirname) then
                Listen PORT sslOptions listening d
              else
                match FsBoot.mkdirSync bf d (UPLOAD_PATH dirname) with
                | Some d' =>
                    Listen PORT sslOptions
                      (ConsoleLog ("Created directory: " +:+ UPLOAD_PATH dirname)
                       :: listening) d'
                | None => Throw []
                end
          end
      end
  end.

(** What Express answers when no route matches: the page of its final
    handler (for which [NextError] stands), no handler of [server.js] runs. *)
Definition not_routed (d : disk) : outcome :=
  {| reply := {| status := 404; payload := NextError |};
     effects := []; disk_after := d |}.

(** A Get for the target name [target]: ['/download/:filename'] matches only
    a path with a non-empty segment after [/download/], whose decoding is
    the [filename] of the handler. *)
Definition download_request (io : io_faults) (d : disk) (target : string)
    (clientCert : option certificate) : outcome :=
  if String.eqb target "" then not_routed d
  else download_route dirname io d target clientCert.

(** A Delete for the target name [target], through ['/files/:filename']. *)
Definition delete_request (io : io_faults) (d : disk) (target : string)
    (clientCert : option certificate) : outcome :=
  if String.eqb target "" then not_routed d
  else delete_route dirname io d target clientCert.

(** A Put as the client sends it: the file part with the name the client
    chose, through multer's parser and the upload route. *)
Definition upload_request (io : io_faults) (d : disk) (now : Z)
    (sent : option (string * list Byte.byte))
    (clientCert : option certificate) : outcome :=
  upload_route dirname io d now (Multer.accept sent) clientCert.

(** One request through the routes of the application. *)
Definition serve (io : io_faults) (d : disk) (r : request)
    (clientCert : option certificate) : outcome :=
  match r with
  | PostUpload now part => upload_route dirname io d now part clientCert
  | GetFiles => list_route dirname io d clientCert
  | GetDownload filename => download_route dirname io d filename clientCert
  | DeleteFiles filename => delete_route dirname io d filename clientCert
  | GetRoot => root_route d clientCert
  end.

(** Requests served one after the other, each with the faults of its
    moment and the certificate of its connection: the disk at the end. *)
Fixpoint serve_all (d : disk)
    (rs : list (io_faults * request * option certificate)) : disk :=
  match rs with
  | [] => d
  | (io, r, clientCert) :: rest =>
      serve_all (disk_after (serve io d r clientCert)) rest
  end.

End Application.

(** A Put whose original name has no separator, as multer hands it over
    when it strips the path of the uploaded file name. *)
Definition plain_upload (r : request) : Prop :=
  match r with
  | PostUpload _ (Some (original, _)) => Js.includes original "/" = false
  | _ => True
  end.

(** ** A concrete deployment, for examples *)

Module Scenario.

(** [server.js] lives in [/srv/OctoShare/src], hence the store in
    [/srv/uploads]. *)
Definition dirname : string := "/srv/OctoShare/src".

Definition no_faults : io_faults :=
  {| write_fault := fun _ => false; unlink_fault := fun _ => false;
     readdir_fault := fun _ => false; send_fault := fun _ => None |}.

Definition with_CN (cn : option string) : option certificate :=
  Some {| subject := Some {| CN := cn |} |}.

Definition alice : option certificate := with_CN (Some "alice").

(** What [getPeerCertificate()] gives for a peer without certificate. *)
Definition no_certificate : option certificate := Some {| subject := None |}.

Definition ten_bytes : list Byte.byte :=
  String.list_byte_of_string "0123456789".

Definition empty_store : disk := {[ ["srv"; "uploads"] := Directory ]}.

Definition store_with_report : disk :=
  <[ ["srv"; "uploads"; "1700000000000-report.txt"] := RegularFile ten_bytes ]>
    empty_store.

End Scenario.

(** The same deployment with its PKI material, before the first start. *)
Module Deployment.
Import Scenario.

Definition no_boot_faults : boot_faults :=
  {| read_fault := fun _ => false; mkdir_fault := fun _ => false |}.

Definition pem (text : string) : list Byte.byte := String.list_byte_of_string text.

Definition fresh_disk : disk :=
  <[ [] := Directory ]>
  (<[ ["srv"] := Directory ]>
  (<[ ["srv"; "infra"] := Directory ]>
  (<[ ["srv"; "infra"; "openssl"] := Directory ]>
  (<[ ["srv"; "infra"; "openssl"; "server-key.pem"] := RegularFile (pem "KEY") ]>
  (<[ ["srv"; "infra"; "openssl"; "server-cert.pem"] := RegularFile (pem "CERT") ]>
  (<[ ["srv"; "infra"; "openssl"; "ca-cert.pem"] := RegularFile (pem "CA") ]> ∅)))))).

(** A regular file sits where the store should be. *)
Definition blocked_disk : disk :=
  <[ ["srv"; "uploads"] := RegularFile (pem "not a directory") ]> fresh_disk.

Definition eleven_bytes : list Byte.byte :=
  String.list_byte_of_string "hello world".

(** A store with a subdirectory and a file in it. *)
Definition store_with_subdirectory : disk :=
  <[ ["srv"; "uploads"; "reports"] := Directory ]>
  (<[ ["srv"; "uploads"; "reports"; "q1.txt"] := RegularFile eleven_bytes ]>
     store_with_report).

(** The first start on the fresh disk, and what it passes to [listen]. *)
Definition first_boot : boot_result := startup dirname no_boot_faults fresh_disk.

Definition booted_options : ssl_options :=
  match first_boot with
  | Listen _ options _ _ => options
  | _ => {| key := []; cert := []; requestCert := false;
            rejectUnauthorized := false; ca := [] |}
  end.

Definition booted_console : list effect :=
  match first_boot with
  | Listen _ _ console _ => console
  | Exit _ console | Throw console => console
  end.

Definition booted_disk : disk :=
  match first_boot with
  | Listen _ _ _ d => d
  | _ => fresh_disk
  end.

(** A Put, a List, a Get, a Delete of the store root, a Get of a traversal
    name, a Delete and a health check, one after the other. *)
Definition busy_day : list (io_faults * request * option certificate) :=
  [(no_faults, PostUpload 1700000000000 (Some ("report.txt", ten_bytes)), alice);
   (no_faults, GetFiles, alice);
   (no_faults, GetDownload "1700000000000-report.txt", alice);
   (no_faults, DeleteFiles ".", alice);
   (no_faults, GetDownload "../infra/openssl/server-key.pem", alice);
   (no_faults, DeleteFiles "1700000000000-report.txt", no_certificate);
   (no_faults, DeleteFiles "1700000000000-report.txt", alice);
   (no_faults, GetRoot, no_certificate)].

End Deployment.

(** ** Sanity checks of the run-time model *)

Example join_doc_example :
  Path.join ["/foo"; "bar"; "baz/asdf"; "quux"; ".."] = "/foo/bar/baz/asdf".
Proof. reflexivity. Qed.

Example normalize_doc_example :
  Path.normalize "/foo/bar//baz/asdf/quux/.." = "/foo/bar/baz/asdf".
Proof. reflexivity. Qed.

Example normalize_relative_example :
  Path.normalize "../a/./../../b/" = "../../b/".
Proof. reflexivity. Qed.

Example includes_example :
  Js.includes "a/../../b" ".." = true /\ Js.includes "report.txt" ".." = false.
Proof. split; reflexivity. Qed.

Example number_to_string_example :
  Js.number_to_string 1700000000000 = "1700000000000"
  /\ Js.number_to_string 0 = "0" /\ Js.number_to_string (-42) = "-42".
Proof. repeat split; reflexivity. Qed.

(** ** Facts about the string functions *)

Module JsFacts.
Import Js.

Lemma app_assoc (a b c : string) : (a +:+ b) +:+ c = a +:+ (b +:+ c).
Proof. induction a as [|x a IH]; simpl; [reflexivity | now rewrite IH]. Qed.

Lemma app_empty_r (a : string) : a +:+ "" = a.
Proof. induction a as [|x a IH]; simpl; [reflexivity | now rewrite IH]. Qed.

Lemma prefix_iff (a s : string) :
  String.prefix a s = true <-> exists post, s = a +:+ post.
Proof.
  revert s. induction a as [|x a IH]; intros s.
  - destruct s; simpl; split; eauto.
  - destruct s as [|y s]; simpl.
    + split; [discriminate | intros [post H]; discriminate].
    + destruct (Ascii.ascii_dec x y) as [->|Hne].
      * rewrite IH. split; intros [post H]; exists post; congruence.
      * split; [discriminate | intros [post H]; congruence].
Qed.

(** [includes] is the substring test. *)
Lemma includes_iff (s sub : string) :
  includes s sub = true <-> exists pre post, s = pre +:+ sub +:+ post.
Proof.
  induction s as [|c s IH]; cbn [includes].
  - rewrite orb_false_r, prefix_iff. split.
    + intros [post H]. now exists "", post.
    + intros (pre & post & H). destruct pre; [|discriminate]. now exists post.
  - rewrite orb_true_iff, IH, prefix_iff. split.
    + intros [[post H] | (pre & post & H)].
      * now exists "", post.
      * exists (String c pre), post. simpl. now rewrite H.
    + intros (pre & post & H). destruct pre as [|x pre]; simpl in H.
      * left. now exists post.
      * right. injection H as _ H. now exists pre, post.
Qed.

Lemma includes_false_tail c s sub :
  includes (String c s) sub = false -> includes s sub = false.
Proof. cbn [includes]. now intros [_ H]%orb_false_iff. Qed.

(** No occurrence can start inside a run of characters that differ from
    the first character of the needle. *)
Lemma includes_skip (p s : string) (c : ascii) (sub : string) :
  (forall pre post, p <> pre +:+ String c post) ->
  includes (p +:+ s) (String c sub) = includes s (String c sub).
Proof.
  induction p as [|x p IH]; intros Hp; [reflexivity|].
  cbn [String.append includes String.prefix].
  destruct (Ascii.ascii_dec c x) as [->|Hne].
  - exfalso. now apply (Hp "" p).
  - cbn [orb]. apply IH. intros pre post ->. now apply (Hp (String x pre) post).
Qed.

Lemma split_sep_nonempty (s : string) : split_sep s <> [].
Proof.
  induction s as [|c s IH]; simpl; [discriminate|].
  destruct (Ascii.eqb c "/"); [discriminate|].
  destruct (split_sep s); discriminate.
Qed.

(** Splitting distributes over a separator. *)
Lemma split_sep_app_cons (a b : string) :
  split_sep (a +:+ String "/" b) = split_sep a ++ split_sep b.
Proof.
  induction a as [|c a IH]; [reflexivity|].
  cbn [String.append split_sep]. rewrite IH.
  destruct (Ascii.eqb c "/"); [reflexivity|].
  pose proof (split_sep_nonempty a).
  destruct (split_sep a); [contradiction | reflexivity].
Qed.

Lemma split_sep_app (a b : string) :
  split_sep (a +:+ "/" +:+ b) = split_sep a ++ split_sep b.
Proof. exact (split_sep_app_cons a b). Qed.

(** The first piece of a split is a prefix of the string. *)
Lemma split_sep_head (s seg : string) (segs : list string) :
  split_sep s = seg :: segs -> String.prefix seg s = true.
Proof.
  revert seg segs. induction s as [|c s IH]; intros seg segs; simpl.
  - now intros [= <- <-].
  - destruct (Ascii.eqb c "/").
    + now intros [= <- <-].
    + pose proof (split_sep_nonempty s) as Hne.
      destruct (split_sep s) as [|seg' segs']; [contradiction|].
      intros [= <- <-]. simpl.
      destruct (Ascii.ascii_dec c c); [|congruence]. now apply (IH seg' segs').
Qed.

(** A piece equal to [".."] shows up as an occurrence of [".."]. *)
Lemma split_sep_dotdot (s : string) :
  In ".." (split_sep s) -> includes s ".." = true.
Proof.
  induction s as [|c s IH]; cbn [split_sep includes].
  - intros [H|[]]. discriminate.
  - destruct (Ascii.eqb c "/").
    + intros [H|H]; [discriminate|]. rewrite (IH H). apply orb_true_r.
    + pose proof (split_sep_nonempty s) as Hne.
      destruct (split_sep s) as [|seg segs] eqn:E; [contradiction|].
      intros [H|H].
      * injection H as -> ->.
        apply split_sep_head in E. apply prefix_iff in E as [post ->].
        destruct post; reflexivity.
      * rewrite IH; [apply orb_true_r | now right].
Qed.

Lemma no_dotdot_segments (s : string) :
  includes s ".." = false -> ~ In ".." (split_sep s).
Proof.
  intros H Hin. apply split_sep_dotdot in Hin. congruence.
Qed.

End JsFacts.

(** ** Facts about [path.join] *)

Module PathFacts.
Import Js JsFacts Path.

Lemma split_sep_atoms (s : string) : Forall atom (split_sep s).
Proof.
  induction s as [|c s IH]; cbn [split_sep].
  - now repeat constructor.
  - destruct (Ascii.eqb c "/") eqn:Ec.
    + now constructor.
    + pose proof (split_sep_nonempty s) as Hne.
      destruct (split_sep s) as [|seg segs]; [contradiction|].
      inversion IH as [|? ? Hseg Hsegs]; subst. constructor; [|assumption].
      unfold atom in *. cbn [split_sep]. now rewrite Ec, Hseg.
Qed.

Lemma split_concat (segs : list string) :
  segs <> [] -> Forall atom segs -> split_sep (String.concat "/" segs) = segs.
Proof.
  induction segs as [|x [|y ys] IH]; intros Hne Hall; [contradiction| |].
  - inversion Hall; subst. assumption.
  - inversion Hall as [|? ? Hx Hrest]; subst.
    change (String.concat "/" (x :: y :: ys))
      with (x +:+ "/" +:+ String.concat "/" (y :: ys)).
    rewrite split_sep_app, Hx, IH; [reflexivity | discriminate | assumption].
Qed.

Lemma push_segment_plain (a : bool) (res : list string) (seg : string) :
  seg <> ".." ->
  push_segment a res seg = if kept seg then seg :: res else res.
Proof.
  intros Hseg. unfold push_segment, kept.
  destruct (String.eqb seg "" || String.eqb seg "."); [reflexivity|].
  destruct (String.eqb_spec seg ".."); [contradiction | reflexivity].
Qed.

(** Without a [".."] segment nothing is ever removed from the stack. *)
Lemma fold_push_plain (a : bool) (segs acc : list string) :
  ~ In ".." segs ->
  fold_left (push_segment a) segs acc = rev (List.filter kept segs) ++ acc.
Proof.
  revert acc. induction segs as [|seg segs IH]; intros acc Hno; [reflexivity|].
  cbn [fold_left List.filter].
  rewrite push_segment_plain by (intros ->; apply Hno; now left).
  rewrite IH by (intros H; apply Hno; now right).
  destruct (kept seg); [|reflexivity].
  cbn [rev]. now rewrite <- List.app_assoc.
Qed.

Lemma push_segment_entries (res : list string) (seg : string) :
  atom seg -> Forall entry res -> Forall entry (push_segment false res seg).
Proof.
  intros Hseg Hres. unfold push_segment.
  destruct (String.eqb seg "" || String.eqb seg ".") eqn:Ek; [assumption|].
  destruct (String.eqb_spec seg "..") as [->|Hne].
  - destruct res as [|top below]; [constructor|].
    destruct (String.eqb top ".."); [assumption|]. now inversion Hres.
  - constructor; [|assumption]. unfold entry, kept. now rewrite Ek.
Qed.

Lemma fold_push_entries (segs acc : list string) :
  Forall atom segs -> Forall entry acc ->
  Forall entry (fold_left (push_segment false) segs acc).
Proof.
  revert acc. induction segs as [|seg segs IH]; intros acc Hsegs Hacc; [assumption|].
  inversion Hsegs; subst. cbn [fold_left].
  apply IH; [assumption|]. now apply push_segment_entries.
Qed.

Lemma resolve_entries (p : string) : Forall entry (resolve p).
Proof.
  unfold resolve, normalize_segments. apply Forall_rev.
  apply fold_push_entries; [apply split_sep_atoms | constructor].
Qed.

Lemma entries_no_dotdot (segs : list string) :
  Forall entry segs -> ~ In ".." segs.
Proof.
  intros Hall Hin. rewrite Forall_forall in Hall.
  destruct (Hall _ (proj2 (list_elem_of_In _ _) Hin)) as (_ & _ & Hne). now apply Hne.
Qed.

Lemma entries_filter_kept (segs : list string) :
  Forall entry segs -> List.filter kept segs = segs.
Proof.
  induction 1 as [|seg segs (_ & Hk & _) _ IH]; [reflexivity|].
  cbn [List.filter]. now rewrite Hk, IH.
Qed.

(** Resolving a list of entry names gives that list back. *)
Lemma fold_push_entries_id (segs acc : list string) :
  Forall entry segs ->
  fold_left (push_segment false) segs acc = rev segs ++ acc.
Proof.
  intros Hall.
  rewrite fold_push_plain by now apply entries_no_dotdot.
  now rewrite entries_filter_kept.
Qed.

Lemma concat_entries_nonempty (segs : list string) :
  Forall entry segs -> String.concat "/" segs = "" -> segs = [].
Proof.
  intros Hall. destruct segs as [|x [|y ys]]; [reflexivity| |];
    inversion Hall as [|? ? (_ & Hk & _) _]; subst; unfold kept in Hk.
  - cbn [String.concat]. intros ->. discriminate.
  - destruct x; [discriminate|]. discriminate.
Qed.

Lemma isAbsolute_cons (p : string) :
  isAbsolute p = true -> exists rest, p = String "/" rest.
Proof.
  unfold isAbsolute. intros H. apply prefix_iff in H as [rest ->]. now exists rest.
Qed.

Lemma normalize_absolute (p : string) :
  isAbsolute p = true -> isAbsolute (normalize p) = true.
Proof.
  intros Habs. destruct (isAbsolute_cons p Habs) as [rest ->].
  unfold normalize. rewrite Habs. cbn [String.eqb negb].
  destruct (String.eqb _ ""); [reflexivity|].
  apply prefix_iff. eexists. reflexivity.
Qed.

(** The canonical form of an absolute path names the same entries. *)
Lemma resolve_normalize (p : string) :
  isAbsolute p = true -> resolve (normalize p) = resolve p.
Proof.
  intros Habs. destruct (isAbsolute_cons p Habs) as [rest Hp].
  unfold normalize. rewrite Habs. cbn [negb].
  replace (String.eqb p "") with false by now rewrite Hp.
  unfold normalizeString. fold (resolve p).
  pose proof (resolve_entries p) as Hent.
  destruct (String.eqb_spec (String.concat "/" (resolve p)) "") as [He|He].
  - apply concat_entries_nonempty in He; [|assumption]. now rewrite He.
  - assert (resolve p <> []) as Hne by (intros E; now rewrite E in He).
    assert (Forall atom (resolve p)) as Hat
      by (eapply Forall_impl; [exact Hent|]; now intros ? (? & _)).
    set (S := resolve p) in *.
    unfold resolve at 1, normalize_segments.
    destruct (ends_with_sep p).
    + change ("/" +:+ String.concat "/" S +:+ "/")
        with ("" +:+ "/" +:+ (String.concat "/" S +:+ String "/" "")).
      rewrite split_sep_app, split_sep_app_cons, split_concat by assumption.
      cbn [split_sep app fold_left push_segment String.eqb orb].
      rewrite fold_left_app. cbn [fold_left push_segment String.eqb orb].
      rewrite fold_push_entries_id by assumption.
      now rewrite List.app_nil_r, rev_involutive.
    + rewrite app_empty_r.
      change ("/" +:+ String.concat "/" S)
        with ("" +:+ "/" +:+ String.concat "/" S).
      rewrite split_sep_app, split_concat by assumption.
      cbn [split_sep app fold_left push_segment String.eqb orb].
      rewrite fold_push_entries_id by assumption.
      now rewrite List.app_nil_r, rev_involutive.
Qed.

(** Appending a name without [".."] segment only adds entries. *)
Lemma resolve_append (a b : string) :
  ~ In ".." (split_sep b) ->
  resolve (a +:+ "/" +:+ b) = resolve a ++ List.filter kept (split_sep b).
Proof.
  intros Hno. unfold resolve, normalize_segments.
  rewrite split_sep_app, fold_left_app, fold_push_plain by assumption.
  now rewrite rev_app_distr, rev_involutive.
Qed.

(** [path.join(root, name)] for an absolute root and a name that does not
    include [".."]: the entries of the root followed by those of the name. *)
Lemma resolve_join (root name : string) :
  isAbsolute root = true -> includes name ".." = false ->
  resolve (join [root; name]) = resolve root ++ List.filter kept (split_sep name).
Proof.
  intros Habs Hinc. destruct (isAbsolute_cons root Habs) as [rest Hroot].
  unfold join. cbn [List.filter].
  replace (String.eqb root "") with false by now rewrite Hroot.
  cbn [negb]. destruct (String.eqb_spec name "") as [->|Hname]; cbn [negb].
  - cbn [String.concat]. rewrite resolve_normalize by assumption.
    now rewrite List.app_nil_r.
  - change (String.concat "/" [root; name]) with (root +:+ "/" +:+ name).
    rewrite resolve_normalize
      by (rewrite Hroot; apply prefix_iff; eexists; reflexivity).
    apply resolve_append. now apply no_dotdot_segments.
Qed.

(** Gluing the pieces of a split back together gives the string back. *)
Lemma concat_split (s : string) : String.concat "/" (split_sep s) = s.
Proof.
  induction s as [|c s IH]; [reflexivity|]. cbn [split_sep].
  pose proof (split_sep_nonempty s) as Hne.
  destruct (Ascii.eqb_spec c "/") as [->|_];
    destruct (split_sep s) as [|seg segs]; try contradiction.
  - change (String.concat "/" ("" :: seg :: segs))
      with (String "/" (String.concat "/" (seg :: segs))).
    now rewrite IH.
  - destruct segs as [|seg' segs'].
    + cbn [String.concat] in *. now rewrite IH.
    + change (String.concat "/" (String c seg :: seg' :: segs'))
        with (String c (String.concat "/" (seg :: seg' :: segs'))).
      now rewrite IH.
Qed.

Lemma concat_app (l1 l2 : list string) :
  l1 <> [] -> l2 <> [] ->
  String.concat "/" (l1 ++ l2)
  = String.concat "/" l1 +:+ "/" +:+ String.concat "/" l2.
Proof.
  intros H1 H2. induction l1 as [|x [|y l] IH]; [contradiction| |].
  - destruct l2; [contradiction | reflexivity].
  - change (String.concat "/" ((x :: y :: l) ++ l2))
      with (x +:+ "/" +:+ String.concat "/" ((y :: l) ++ l2)).
    rewrite IH by discriminate.
    change (String.concat "/" (x :: y :: l))
      with (x +:+ "/" +:+ String.concat "/" (y :: l)).
    now rewrite !JsFacts.app_assoc.
Qed.

Lemma ends_with_sep_app (a b : string) :
  b <> "" -> ends_with_sep (a +:+ b) = ends_with_sep b.
Proof.
  intros Hb. induction a as [|c a IH]; [reflexivity|].
  cbn [String.append ends_with_sep].
  destruct (a +:+ b) eqn:E; [|assumption].
  destruct a; [cbn in E; contradiction | discriminate].
Qed.

(** A string that ends with a separator splits into two pieces at least. *)
Lemma ends_with_sep_split (s : string) :
  ends_with_sep s = true -> exists x y rest, split_sep s = x :: y :: rest.
Proof.
  induction s as [|c s IH]; [discriminate|].
  cbn [ends_with_sep split_sep]. destruct s as [|c' s'].
  - intros ->. now exists "", "", [].
  - intros H. destruct (IH H) as (x & y & rest & ->).
    destruct (Ascii.eqb c "/"); eauto.
Qed.

(** ... and the last of them is empty. *)
Lemma ends_with_sep_last (s : string) :
  ends_with_sep s = true -> last (split_sep s) = Some "".
Proof.
  induction s as [|c s IH]; [discriminate|].
  cbn [ends_with_sep split_sep]. destruct s as [|c' s'].
  - intros ->. reflexivity.
  - intros H. specialize (IH H).
    destruct (ends_with_sep_split _ H) as (x & y & rest & Hs).
    rewrite Hs in *.
    destruct (Ascii.eqb c "/"); rewrite ?last_cons_cons in *; assumption.
Qed.

Lemma kept_pieces_no_trailing_sep (s : string) :
  Forall (fun piece => kept piece = true) (split_sep s) -> ends_with_sep s = false.
Proof.
  intros Hall. destruct (ends_with_sep s) eqn:E; [|reflexivity].
  apply ends_with_sep_last, last_Some_elem_of in E.
  rewrite Forall_forall in Hall. specialize (Hall _ E). discriminate.
Qed.

(** A root in canonical form: absolute, below [/], written as its entries
    glued with separators. *)
Lemma join_literal (root name : string) :
  resolve root <> [] ->
  root = "/" +:+ String.concat "/" (resolve root) ->
  includes name ".." = false ->
  Forall (fun piece => kept piece = true) (split_sep name) ->
  join [root; name] = root +:+ "/" +:+ name.
Proof.
  intros Hne Hroot Hinc Hkept.
  assert (exists r, root = String "/" r) as [r Hr] by (eexists; exact Hroot).
  assert (name <> "") as Hname by (intros ->; inversion Hkept; discriminate).
  assert (List.filter kept (split_sep name) = split_sep name) as Hfilter.
  { induction Hkept as [|x l Hx _ IH]; [reflexivity|].
    cbn [List.filter]. now rewrite Hx, IH. }
  unfold join. cbn [List.filter].
  replace (String.eqb root "") with false by now rewrite Hr.
  replace (String.eqb name "") with false
    by (symmetry; now apply String.eqb_neq).
  cbn [negb].
  change (String.concat "/" [root; name]) with (root +:+ "/" +:+ name).
  unfold normalize, normalizeString.
  replace (isAbsolute (root +:+ "/" +:+ name)) with true
    by (symmetry; apply prefix_iff; rewrite Hr; eexists; reflexivity).
  replace (String.eqb (root +:+ "/" +:+ name) "") with false by now rewrite Hr.
  cbn [negb]. fold (resolve (root +:+ "/" +:+ name)).
  rewrite resolve_append by now apply no_dotdot_segments.
  rewrite Hfilter, concat_app by (assumption || apply split_sep_nonempty).
  rewrite concat_split.
  rewrite (ends_with_sep_app root ("/" +:+ name)) by discriminate.
  rewrite (ends_with_sep_app "/" name) by assumption.
  rewrite kept_pieces_no_trailing_sep by assumption.
  destruct (String.eqb_spec (String.concat "/" (resolve root) +:+ "/" +:+ name) "")
    as [E|_].
  - destruct (String.concat "/" (resolve root)); discriminate.
  - rewrite JsFacts.app_empty_r. rewrite Hroot at 2. reflexivity.
Qed.

(** The canonical form of an absolute path that does not end at [/]. *)
Lemma normalize_literal (p : string) :
  isAbsolute p = true -> ends_with_sep p = false -> resolve p <> [] ->
  normalize p = "/" +:+ String.concat "/" (resolve p).
Proof.
  intros Habs Hend Hne. destruct (isAbsolute_cons p Habs) as [rest Hp].
  unfold normalize, normalizeString. rewrite Habs, Hend. cbn [negb].
  fold (resolve p).
  replace (String.eqb p "") with false by now rewrite Hp.
  destruct (String.eqb_spec (String.concat "/" (resolve p)) "") as [E|_].
  - apply concat_entries_nonempty in E; [contradiction | apply resolve_entries].
  - now rewrite JsFacts.app_empty_r.
Qed.

Lemma starts_with_app (l k : list string) : starts_with l (l ++ k) = true.
Proof.
  induction l as [|x l IH]; [reflexivity|].
  cbn [starts_with app]. now rewrite String.eqb_refl, IH.
Qed.

Lemma starts_with_iff (l m : list string) :
  starts_with l m = true <-> exists k, m = l ++ k.
Proof.
  revert m. induction l as [|x l IH]; intros m; cbn [starts_with].
  - split; eauto.
  - destruct m as [|y m].
    + split; [discriminate | intros [k H]; discriminate].
    + rewrite andb_true_iff, IH, String.eqb_eq. split.
      * intros [-> [k ->]]. now exists k.
      * intros [k [= -> ->]]. eauto.
Qed.

(** Joining never leaves the root unless the name includes [".."]. *)
Lemma join_within (root name : string) :
  isAbsolute root = true -> includes name ".." = false ->
  within root (join [root; name]) = true.
Proof.
  intros Habs Hinc. unfold within.
  rewrite resolve_join by assumption. apply starts_with_app.
Qed.

End PathFacts.

(** ** Facts about numbers in template literals *)

Module NumberFacts.
Import Js JsFacts.

Lemma all_chars_app (P : ascii -> bool) (a b : string) :
  all_chars P (a +:+ b) = all_chars P a && all_chars P b.
Proof.
  induction a as [|c a IH]; [reflexivity|].
  cbn [String.append all_chars]. now rewrite IH, andb_assoc.
Qed.

Lemma all_chars_impl (P Q : ascii -> bool) (s : string) :
  (forall c, P c = true -> Q c = true) ->
  all_chars P s = true -> all_chars Q s = true.
Proof.
  intros HPQ. induction s as [|c s IH]; [reflexivity|].
  cbn [all_chars]. intros [Hc Hs]%andb_true_iff.
  now rewrite (HPQ _ Hc), IH.
Qed.

Lemma all_chars_occurrence (P : ascii -> bool) (s pre post : string) (c : ascii) :
  all_chars P s = true -> s = pre +:+ String c post -> P c = true.
Proof.
  intros Hall ->. rewrite all_chars_app in Hall.
  apply andb_true_iff in Hall as [_ Hall]. cbn [all_chars] in Hall.
  now apply andb_true_iff in Hall as [Hc _].
Qed.

Lemma string_of_uint_digits (d : Decimal.uint) :
  all_chars is_digit (NilEmpty.string_of_uint d) = true.
Proof. induction d; simpl; auto. Qed.

Lemma string_of_uint_nonempty (d : Decimal.uint) :
  d <> Decimal.Nil -> NilEmpty.string_of_uint d <> "".
Proof. destruct d; [contradiction | discriminate ..]. Qed.

(** A rendered integer: a non-empty run of digits, after a minus sign below
    zero. *)
Lemma number_to_string_shape (n : Z) :
  exists ds, all_chars is_digit ds = true /\ ds <> "" /\
    (number_to_string n = ds \/ number_to_string n = String "-" ds).
Proof.
  destruct n as [|p|p]; unfold number_to_string; cbn [Z.to_int NilEmpty.string_of_int].
  - exists "0". repeat split; [discriminate | now left].
  - exists (NilEmpty.string_of_uint (Pos.to_uint p)).
    repeat split; [apply string_of_uint_digits | | now left].
    apply string_of_uint_nonempty, DecimalPos.Unsigned.to_uint_nonnil.
  - exists (NilEmpty.string_of_uint (Pos.to_uint p)).
    repeat split; [apply string_of_uint_digits | | now right].
    apply string_of_uint_nonempty, DecimalPos.Unsigned.to_uint_nonnil.
Qed.

Lemma number_to_string_inj (n m : Z) :
  number_to_string n = number_to_string m -> n = m.
Proof.
  unfold number_to_string. intros H.
  apply DecimalZ.to_int_inj.
  apply (f_equal NilEmpty.int_of_string) in H.
  rewrite !NilEmpty.isi in H. congruence.
Qed.

(** Two runs of digits followed by a dash: the first dash tells where the
    digits end. *)
Lemma digits_dash_inj (d1 d2 x y : string) :
  all_chars is_digit d1 = true -> all_chars is_digit d2 = true ->
  d1 +:+ String "-" x = d2 +:+ String "-" y -> d1 = d2 /\ x = y.
Proof.
  revert d2. induction d1 as [|c d1 IH]; intros [|c' d2];
    cbn [String.append all_chars]; intros H1 H2 Heq.
  - injection Heq as ->. now split.
  - injection Heq as <- _. discriminate.
  - injection Heq as -> _. discriminate.
  - injection Heq as -> Heq.
    apply andb_true_iff in H1 as [_ H1]. apply andb_true_iff in H2 as [_ H2].
    destruct (IH d2 H1 H2 Heq) as [-> ->]. now split.
Qed.

Lemma number_to_string_chars (n : Z) :
  all_chars digit_or_dash (number_to_string n) = true.
Proof.
  destruct (number_to_string_shape n) as (ds & Hds & _ & [-> | ->]).
  - eapply all_chars_impl; [|exact Hds]. unfold digit_or_dash. now intros c ->.
  - cbn [all_chars]. rewrite andb_true_iff. split; [reflexivity|].
    eapply all_chars_impl; [|exact Hds]. unfold digit_or_dash. now intros c ->.
Qed.

Lemma digit_or_dash_plain (c : ascii) :
  digit_or_dash c = true -> c <> "."%char /\ c <> "/"%char.
Proof.
  intros H. split; intros ->; discriminate.
Qed.

End NumberFacts.

(** ** The concrete scenarios of the specification *)

Module ScenarioChecks.
Import Scenario.

Example UPLOAD_PATH_value : UPLOAD_PATH dirname = "/srv/uploads".
Proof. reflexivity. Qed.

(** Scenario 1: an authenticated Put of ten bytes named [report.txt]. *)
Example put_report :
  let o := upload_route dirname no_faults empty_store 1700000000000
             (Some ("report.txt", ten_bytes)) alice in
  reply o = {| status := 200;
               payload := Json [("message", "File uploaded securely!");
                                ("filename", "1700000000000-report.txt");
                                ("clientCN", "alice")] |}
  /\ disk_after o !! ["srv"; "uploads"; "1700000000000-report.txt"]
     = Some (RegularFile ten_bytes).
Proof. split; vm_compute; reflexivity. Qed.

(** Scenario 2: an unauthenticated List. *)
Example list_anonymous :
  let o := list_route dirname no_faults store_with_report no_certificate in
  status (reply o) = 401 /\ effects o = [].
Proof. split; reflexivity. Qed.

Example list_alice :
  reply (list_route dirname no_faults store_with_report alice)
  = {| status := 200; payload := JsonArray ["1700000000000-report.txt"] |}.
Proof. vm_compute. reflexivity. Qed.

(** Scenario 3: an authenticated Get of [../secret.pem]. *)
Example get_traversal :
  let o := download_route dirname no_faults store_with_report "../secret.pem" alice in
  status (reply o) = 400 /\ effects o = [].
Proof. split; reflexivity. Qed.

Example get_report :
  reply (download_route dirname no_faults store_with_report
           "1700000000000-report.txt" alice)
  = {| status := 200;
       payload := Attachment "1700000000000-report.txt" ten_bytes |}.
Proof. vm_compute. reflexivity. Qed.

(** Scenario 4: an authenticated Delete of a name never uploaded. *)
Example delete_unknown :
  status (reply (delete_route dirname no_faults store_with_report "nothing.txt" alice))
  = 404.
Proof. vm_compute. reflexivity. Qed.

Example delete_report :
  let o := delete_route dirname no_faults store_with_report
             "1700000000000-report.txt" alice in
  status (reply o) = 200
  /\ disk_after o !! ["srv"; "uploads"; "1700000000000-report.txt"] = None.
Proof. split; vm_compute; reflexivity. Qed.

End ScenarioChecks.

(** ** Facts about multer's parser *)

Module MulterFacts.
Import Js JsFacts NumberFacts Multer.

Lemma after_last_slash_plain (s : string) :
  match after_last_slash s with
  | Some tail => all_chars no_slash tail = true
  | None => all_chars no_slash s = true
  end.
Proof.
  induction s as [|c s IH]; [reflexivity|]. cbn [after_last_slash].
  destruct (after_last_slash s) as [tail|]; [assumption|].
  unfold no_slash at 1. cbn [all_chars].
  destruct (is_slash c) eqn:Hc; [assumption|].
  unfold no_slash at 1. now rewrite Hc.
Qed.

(** What busboy leaves of a file name has neither slash nor backslash. *)
Lemma basename_plain (path : string) : all_chars no_slash (basename path) = true.
Proof.
  unfold basename. pose proof (after_last_slash_plain path) as H.
  destruct (after_last_slash path) as [tail|];
    destruct (String.eqb _ ".." || String.eqb _ "."); auto.
Qed.

Lemma plain_not_included (P : ascii -> bool) (s : string) (c : ascii) (sub : string) :
  all_chars P s = true -> P c = false -> includes s (String c sub) = false.
Proof.
  intros Hall Hc. rewrite <- (JsFacts.app_empty_r s).
  rewrite includes_skip; [reflexivity|].
  intros pre post Heq.
  apply (all_chars_occurrence _ _ _ _ _ Hall) in Heq. congruence.
Qed.

(** The part multer accepts: a name without slash or backslash, not
    empty, and neither [.] nor [..]. *)
Lemma accept_Some (sent : option (string * list Byte.byte))
    (originalname : string) (content : list Byte.byte) :
  accept sent = Some (originalname, content) ->
  exists name, sent = Some (name, content)
               /\ originalname = basename name
               /\ originalname <> ""
               /\ includes originalname "/" = false
               /\ includes originalname "\" = false.
Proof.
  unfold accept. destruct sent as [[name body]|]; [|discriminate].
  destruct (String.eqb_spec (basename name) "") as [|Hne]; [discriminate|].
  intros [= <- <-]. exists name. repeat split; try assumption;
    apply (plain_not_included no_slash); try apply basename_plain; reflexivity.
Qed.


End MulterFacts.

(** ** Peer identity *)

(** The identity is absent exactly when there is no certificate object or
    the object has no subject. *)
Lemma cert_subject_None_iff (clientCert : option certificate) :
  cert_subject clientCert = None
  <-> clientCert = None \/ exists c, clientCert = Some c /\ subject c = None.
Proof.
  destruct clientCert as [c|]; cbn [cert_subject].
  - split.
    + intros H. right. now exists c.
    + intros [H | (c' & [= <-] & H)]; [discriminate | assumption].
  - split; [now left | reflexivity].
Qed.

(** ** The routes *)

Section Routes.
Import Js JsFacts Path PathFacts NumberFacts.

Variable dirname : string.
Hypothesis dirname_absolute : isAbsolute dirname = true.

Lemma UPLOAD_PATH_absolute : isAbsolute (UPLOAD_PATH dirname) = true.
Proof.
  destruct (isAbsolute_cons dirname dirname_absolute) as [rest Hd].
  unfold UPLOAD_PATH, join. rewrite Hd. cbn [List.filter String.eqb negb].
  apply normalize_absolute. apply prefix_iff. eexists. reflexivity.
Qed.

(** The store root is in canonical form: a slash, then its entries glued
    with slashes. *)
Lemma UPLOAD_PATH_canonical :
  resolve (UPLOAD_PATH dirname) <> []
  /\ UPLOAD_PATH dirname
     = "/" +:+ String.concat "/" (resolve (UPLOAD_PATH dirname)).
Proof.
  destruct (isAbsolute_cons dirname dirname_absolute) as [rest Hd].
  assert (UPLOAD_PATH dirname = normalize (dirname +:+ "/../../uploads")) as HU.
  { unfold UPLOAD_PATH, join. rewrite Hd. reflexivity. }
  set (J := dirname +:+ "/../../uploads") in *.
  assert (isAbsolute J = true) as HJ.
  { apply prefix_iff. subst J. rewrite Hd. eexists. reflexivity. }
  assert (resolve J = resolve (dirname +:+ "/../..") ++ ["uploads"]) as HR.
  { replace J with ((dirname +:+ "/../..") +:+ "/" +:+ "uploads")
      by (subst J; now rewrite JsFacts.app_assoc).
    rewrite resolve_append; [reflexivity|]. cbn. intuition discriminate. }
  assert (resolve J <> []) as Hne.
  { rewrite HR. now destruct (resolve (dirname +:+ "/../..")). }
  rewrite HU, resolve_normalize by assumption. split; [assumption|].
  apply normalize_literal; try assumption.
  subst J. now rewrite ends_with_sep_app.
Qed.

Lemma within_refl (p : string) : within p p = true.
Proof.
  unfold within. rewrite <- (List.app_nil_r (resolve p)) at 2.
  apply starts_with_app.
Qed.

Lemma join_store_within (name : string) :
  includes name ".." = false ->
  within (UPLOAD_PATH dirname) (join [UPLOAD_PATH dirname; name]) = true.
Proof. apply join_within, UPLOAD_PATH_absolute. Qed.


Lemma storage_filename_includes (now : Z) (original : string) (c : ascii) (sub : string) :
  (c = "."%char \/ c = "/"%char) ->
  includes (storage_filename now original) (String c sub)
  = includes original (String c sub).
Proof.
  intros Hc. unfold storage_filename.
  rewrite <- JsFacts.app_assoc. apply includes_skip.
  intros pre post Heq.
  assert (all_chars digit_or_dash (number_to_string now +:+ "-") = true) as Hall.
  { rewrite all_chars_app, number_to_string_chars. reflexivity. }
  apply (all_chars_occurrence _ _ _ _ _ Hall) in Heq.
  apply digit_or_dash_plain in Heq as [H1 H2]. destruct Hc; contradiction.
Qed.

Lemma storage_filename_inj (t1 t2 : Z) (n1 n2 : string) :
  storage_filename t1 n1 = storage_filename t2 n2 -> t1 = t2 /\ n1 = n2.
Proof.
  unfold storage_filename. intros Heq.
  enough (number_to_string t1 = number_to_string t2 /\ n1 = n2) as [Ht ->]
    by (split; [now apply number_to_string_inj | reflexivity]).
  destruct (number_to_string_shape t1) as (d1 & H1 & E1 & [R1 | R1]);
  destruct (number_to_string_shape t2) as (d2 & H2 & E2 & [R2 | R2]);
    rewrite R1, R2 in Heq |- *.
  - now apply digits_dash_inj.
  - destruct d1 as [|c d1]; [contradiction|].
    injection Heq as -> _. discriminate.
  - destruct d2 as [|c d2]; [contradiction|].
    injection Heq as <- _. discriminate.
  - injection Heq as Heq.
    destruct (digits_dash_inj _ _ _ _ H1 H2 Heq) as [-> ->]. now split.
Qed.

(** *** Naming of uploads *)


(** C6: the stored names of Puts with pairwise distinct
    (timestamp, original name) pairs are pairwise distinct. *)
Theorem stored_names_pairwise_distinct (puts : list (Z * string)) :
  List.NoDup puts ->
  List.NoDup (map (fun put => storage_filename (fst put) (snd put)) puts).
Proof.
  apply Finite.Injective_map_NoDup.
  intros [t1 n1] [t2 n2] H. cbn [fst snd] in H.
  apply storage_filename_inj in H as [-> ->]. reflexivity.
Qed.

(** *** Admission *)

(** C2, as the code has it: without peer identity, List is answered 401,
    and so are Get and Delete of a name that does not include [".."] (a name
    that does is answered 400 first); none of these touches the file system.
    A Put that carried a file is answered 401, one without file part 400. *)
Theorem anonymous_requests_denied
    (io : io_faults) (d : disk) (clientCert : option certificate) :
  cert_subject clientCert = None ->
  (let o := list_route dirname io d clientCert in
   status (reply o) = 401 /\ effects o = [] /\ disk_after o = d)
  /\ (forall name, includes name ".." = false ->
        (let o := download_route dirname io d name clientCert in
         status (reply o) = 401 /\ effects o = [] /\ disk_after o = d)
        /\ (let o := delete_route dirname io d name clientCert in
            status (reply o) = 401 /\ effects o = [] /\ disk_after o = d))
  /\ (forall name, includes name ".." = true ->
        (let o := download_route dirname io d name clientCert in
         status (reply o) = 400 /\ effects o = [] /\ disk_after o = d)
        /\ (let o := delete_route dirname io d name clientCert in
            status (reply o) = 400 /\ effects o = [] /\ disk_after o = d))
  /\ (forall now part,
        upload_single dirname io d now part <> None ->
        status (reply (upload_route dirname io d now part clientCert))
        = match part with Some _ => 401 | None => 400 end).
Proof.
  intros Hanon. repeat split;
    unfold list_route, download_route, delete_route;
    rewrite ?Hanon; try match goal with H : includes _ _ = _ |- _ => rewrite H end;
    try reflexivity.
  unfold upload_route, upload_handler.
  destruct part as [[original content]|]; cbn [upload_single] in *.
  - destruct (Fs.writeFile _ _ _ _); [|contradiction].
    cbn [reply status]. now rewrite Hanon.
  - reflexivity.
Qed.

(** C3: a Get or Delete whose target includes the two-dot sequence is
    answered 400 (invalid name) whatever the peer's identity, without any
    file system call or other effect. *)
Theorem traversal_names_rejected
    (io : io_faults) (d : disk) (name : string) (clientCert : option certificate) :
  includes name ".." = true ->
  (let o := download_route dirname io d name clientCert in
   reply o = {| status := 400; payload := Send "Invalid filename provided." |}
   /\ effects o = [] /\ disk_after o = d)
  /\ (let o := delete_route dirname io d name clientCert in
      reply o = {| status := 400;
                   payload := Json [("error", "Invalid filename provided.")] |}
      /\ effects o = [] /\ disk_after o = d).
Proof.
  intros Hinc. unfold download_route, delete_route. rewrite Hinc.
  repeat split.
Qed.

(** C4: every path that List, Get or Delete hands to the file system names
    the store's root directory or something below it, whatever the target
    name. *)
Theorem store_calls_stay_within_root
    (io : io_faults) (d : disk) (name : string) (clientCert : option certificate) :
  let inside := fun c => within (UPLOAD_PATH dirname) (fs_call_path c) = true in
  Forall inside (fs_calls (effects (list_route dirname io d clientCert)))
  /\ Forall inside (fs_calls (effects (download_route dirname io d name clientCert)))
  /\ Forall inside (fs_calls (effects (delete_route dirname io d name clientCert))).
Proof.
  intros inside. subst inside. unfold list_route, download_route, delete_route.
  split; [|split].
  - repeat case_match; cbn; repeat constructor; apply within_refl.
  - destruct (includes name "..") eqn:Hinc; [constructor|].
    pose proof (join_store_within name Hinc).
    repeat case_match; cbn; repeat constructor; assumption.
  - destruct (includes name "..") eqn:Hinc; [constructor|].
    pose proof (join_store_within name Hinc).
    repeat case_match; cbn; repeat constructor; assumption.
Qed.

(** *** Lookups *)

(** C8, as the code has it: for an authenticated caller and a name that
    passed the check, Get answers 404 exactly when nothing, neither file nor
    directory, exists at the joined path; a regular file there is streamed
    (as an attachment named by the base name of the request) unless the
    transfer fails, a directory there ends in the 500 reply. *)
Theorem get_not_found_iff_nothing_there
    (io : io_faults) (d : disk) (name : string) (clientCert : option certificate)
    (subj : subject_t) :
  includes name ".." = false ->
  cert_subject clientCert = Some subj ->
  let filePath := join [UPLOAD_PATH dirname; name] in
  let o := download_route dirname io d name clientCert in
  (status (reply o) = 404 <-> Fs.stat d filePath = None)
  /\ (forall content,
        Fs.stat d filePath = Some (RegularFile content) ->
        send_fault io filePath = None ->
        reply o = {| status := 200;
                     payload := Attachment
                                  (basename (if String.eqb name "" then filePath
                                             else name))
                                  content |})
  /\ (Fs.stat d filePath = Some Directory -> status (reply o) = 500).
Proof.
  intros Hinc Hsubj filePath o. subst o.
  unfold download_route. rewrite Hinc, Hsubj. fold filePath.
  unfold Fs.existsSync, res_download.
  destruct (Fs.stat d filePath) as [[content|]|] eqn:Hstat; cbn [reply status].
  - split; [|split].
    + destruct (send_fault io filePath) as [[|]|]; split; discriminate.
    + intros content' [= <-] ->. reflexivity.
    + discriminate.
  - split; [split; discriminate|]. split; [discriminate | reflexivity].
  - split; [split; reflexivity|]. split; discriminate.
Qed.

(** C9, as the code has it: a Get or Delete for a target name that, joined
    with the store root, does not resolve to the root or below it is
    answered 400 (such a name always includes the two-dot sequence). A
    request for the empty target name matches neither route: no handler
    runs, nothing is touched, and the answer is the 404 of Express, not
    400. *)
Theorem escaping_names_rejected
    (io : io_faults) (d : disk) (name : string) (clientCert : option certificate) :
  (within (UPLOAD_PATH dirname) (join [UPLOAD_PATH dirname; name]) = false ->
   includes name ".." = true
   /\ status (reply (download_request dirname io d name clientCert)) = 400
   /\ status (reply (delete_request dirname io d name clientCert)) = 400
   /\ effects (download_request dirname io d name clientCert) = []
   /\ effects (delete_request dirname io d name clientCert) = []
   /\ disk_after (delete_request dirname io d name clientCert) = d)
  /\ (let o := download_request dirname io d "" clientCert in
      status (reply o) = 404 /\ effects o = [] /\ disk_after o = d)
  /\ (let o := delete_request dirname io d "" clientCert in
      status (reply o) = 404 /\ effects o = [] /\ disk_after o = d).
Proof.
  split; [|split; repeat split].
  intros Hout. destruct (includes name "..") eqn:Hinc.
  - assert (name <> "") as Hname by (intros ->; discriminate).
    unfold download_request, delete_request.
    rewrite (proj2 (String.eqb_neq _ _) Hname).
    unfold download_route, delete_route. rewrite Hinc. repeat split.
  - rewrite join_store_within in Hout by assumption. discriminate.
Qed.

(** C10: a non-empty name that does not include the two-dot sequence is
    never answered 400 by Get or Delete, separators or not. The joined path
    has the entries of the root followed by the pieces of the name (it is
    literally [root/name] when no piece is empty or a single dot), and with a
    peer identity what the disk holds there decides the answer: nothing
    there gives 404, a regular file is streamed by Get and removed by
    Delete, a directory gives 500. So a name with a separator is looked up
    below a subdirectory of the root. *)
Theorem plain_names_looked_up_below_root
    (io : io_faults) (d : disk) (name : string) (clientCert : option certificate) :
  name <> "" ->
  includes name ".." = false ->
  let filePath := join [UPLOAD_PATH dirname; name] in
  let pieces := List.filter kept (split_sep name) in
  let get := download_route dirname io d name clientCert in
  let del := delete_route dirname io d name clientCert in
  status (reply get) <> 400
  /\ status (reply del) <> 400
  /\ resolve filePath = resolve (UPLOAD_PATH dirname) ++ pieces
  /\ (forall subj, cert_subject clientCert = Some subj ->
        head (fs_calls (effects get)) = Some (ExistsSync filePath)
        /\ head (fs_calls (effects del)) = Some (ExistsSync filePath))
  /\ (Forall (fun piece => kept piece = true) (split_sep name) ->
      filePath = UPLOAD_PATH dirname +:+ "/" +:+ name)
  /\ (exists nested,
        includes nested "/" = true /\ includes nested ".." = false
        /\ resolve (join [UPLOAD_PATH dirname; nested])
           = resolve (UPLOAD_PATH dirname) ++ ["reports"; "q1.txt"])
  /\ (is_Some (cert_subject clientCert) ->
      (status (reply get) = 404 <-> Fs.stat d filePath = None)
      /\ (status (reply del) = 404 <-> Fs.stat d filePath = None)
      /\ (Fs.stat d filePath = None -> disk_after del = d)
      /\ (Fs.stat d filePath = Some Directory ->
          status (reply get) = 500 /\ status (reply del) = 500
          /\ disk_after del = d)
      /\ (forall content,
            Fs.stat d filePath = Some (RegularFile content) ->
            (send_fault io filePath = None ->
             reply get = {| status := 200;
                            payload := Attachment (basename name) content |})
            /\ (unlink_fault io filePath = false ->
                status (reply del) = 200
                /\ disk_after del = delete (resolve filePath) d)
            /\ (unlink_fault io filePath = true ->
                status (reply del) = 500 /\ disk_after del = d)))
  /\ (is_Some (cert_subject clientCert) ->
      Forall (fun piece => kept piece = true) (split_sep name) ->
      forall content,
        d !! (resolve (UPLOAD_PATH dirname) ++ split_sep name)
        = Some (RegularFile content) ->
        (send_fault io filePath = None ->
         reply get = {| status := 200;
                        payload := Attachment (basename name) content |})
        /\ (unlink_fault io filePath = false ->
            status (reply del) = 200
            /\ disk_after del
               = delete (resolve (UPLOAD_PATH dirname) ++ split_sep name) d)).
Proof.
  intros Hname Hinc filePath pieces get del.
  assert (resolve filePath = resolve (UPLOAD_PATH dirname) ++ pieces) as Hres
    by (apply resolve_join; [apply UPLOAD_PATH_absolute | assumption]).
  assert (String.eqb name "" = false) as Hne by now apply String.eqb_neq.
  assert (is_Some (cert_subject clientCert) ->
          (status (reply get) = 404 <-> Fs.stat d filePath = None)
          /\ (status (reply del) = 404 <-> Fs.stat d filePath = None)
          /\ (Fs.stat d filePath = None -> disk_after del = d)
          /\ (Fs.stat d filePath = Some Directory ->
              status (reply get) = 500 /\ status (reply del) = 500
              /\ disk_after del = d)
          /\ (forall content,
                Fs.stat d filePath = Some (RegularFile content) ->
                (send_fault io filePath = None ->
                 reply get = {| status := 200;
                                payload := Attachment (basename name) content |})
                /\ (unlink_fault io filePath = false ->
                    status (reply del) = 200
                    /\ disk_after del = delete (resolve filePath) d)
                /\ (unlink_fault io filePath = true ->
                    status (reply del) = 500 /\ disk_after del = d))) as Hdecides.
  { intros [subj Hsubj]. subst get del.
    unfold download_route, delete_route, res_download, Fs.existsSync, Fs.unlinkSync.
    rewrite Hinc, Hsubj, Hne. fold filePath.
    destruct (Fs.stat d filePath) as [[content|]|] eqn:Hstat.
    - destruct (send_fault io filePath) as [[|]|] eqn:Hsend;
        destruct (unlink_fault io filePath) eqn:Hunlink;
        cbn [reply status disk_after];
        (split; [split; discriminate|]);
        (split; [split; discriminate|]);
        (split; [discriminate|]);
        (split; [discriminate|]);
        intros content' [= <-];
        repeat split; try discriminate; reflexivity.
    - cbn [reply status disk_after].
      split; [split; discriminate|]. split; [split; discriminate|].
      split; [discriminate|]. split; [repeat split|]. discriminate.
    - cbn [reply status disk_after].
      split; [split; reflexivity|]. split; [split; reflexivity|].
      split; [reflexivity|]. split; discriminate. }
  split; [|split; [|split; [|split; [|split; [|split; [|split]]]]]].
  - subst get. unfold download_route, res_download. rewrite Hinc.
    repeat case_match; cbn [reply status]; discriminate.
  - subst del. unfold delete_route. rewrite Hinc.
    repeat case_match; cbn [reply status]; discriminate.
  - assumption.
  - intros subj Hsubj. subst get del. unfold download_route, delete_route.
    rewrite Hinc, Hsubj. fold filePath.
    split; repeat case_match; reflexivity.
  - intros Hkept. destruct UPLOAD_PATH_canonical as [Hroot Hcan].
    now apply join_literal.
  - exists "reports/q1.txt". split; [reflexivity|]. split; [reflexivity|].
    rewrite resolve_join; [reflexivity | apply UPLOAD_PATH_absolute | reflexivity].
  - assumption.
  - intros Hid Hkept content Hfile.
    assert (pieces = split_sep name) as Hpieces.
    { subst pieces. clear -Hkept.
      induction Hkept as [|x l Hx _ IH]; [reflexivity|].
      cbn [List.filter]. now rewrite Hx, IH. }
    rewrite Hpieces in Hres. rewrite <- Hres in Hfile |- *.
    assert (ends_with_sep filePath = false) as Hend.
    { destruct UPLOAD_PATH_canonical as [Hroot Hcan].
      subst filePath. rewrite (join_literal _ _ Hroot Hcan Hinc Hkept).
      rewrite (ends_with_sep_app (UPLOAD_PATH dirname) ("/" +:+ name))
        by discriminate.
      rewrite (ends_with_sep_app "/" name) by assumption.
      now apply kept_pieces_no_trailing_sep. }
    assert (Fs.stat d filePath = Some (RegularFile content)) as Hstat
      by (unfold Fs.stat; now rewrite Hfile, Hend).
    destruct Hdecides as (_ & _ & _ & _ & Hreg); [assumption|].
    destruct (Hreg content Hstat) as (Hget & Hdel & _). split; assumption.
Qed.

(** *** Audit trail *)

(** C5, as the code has it: a request writes at most one line to the
    console. A Put, List, Get or Delete that went through writes one line
    starting with its operation tag (Get does so before the transfer, so
    also when the transfer then fails); a List or Delete that failed on the
    file system writes one error line, and for a Put whose write failed
    Express's error handler writes one; every rejected request (no
    identity, invalid name, nothing found, no file part) writes nothing. *)
Theorem audit_trail_per_reply
    (io : io_faults) (d : disk) (now : Z) (part : option (string * list Byte.byte))
    (name : string) (clientCert : option certificate) :
  (let o := upload_route dirname io d now part clientCert in
   if status (reply o) =? 200 then audited "[UPLOAD]" o
   else if status (reply o) =? 500 then audited "Error:" o
   else unaudited o)
  /\ (let o := list_route dirname io d clientCert in
      if status (reply o) =? 200 then audited "[LIST]" o
      else if status (reply o) =? 500 then audited "Error reading upload directory:" o
      else unaudited o)
  /\ (let o := download_route dirname io d name clientCert in
      if (status (reply o) =? 200) || (status (reply o) =? 500)
      then audited "[DOWNLOAD]" o else unaudited o)
  /\ (let o := delete_route dirname io d name clientCert in
      if status (reply o) =? 200 then audited "[DELETE]" o
      else if status (reply o) =? 500 then audited "Error deleting file:" o
      else unaudited o).
Proof.
  unfold audited, unaudited. split; [|split; [|split]].
  - unfold upload_route, upload_single, upload_handler.
    repeat case_match; simplify_eq; cbn in *; try discriminate;
      try reflexivity; eexists; split; reflexivity.
  - unfold list_route.
    repeat case_match; cbn in *; try discriminate;
      try reflexivity; eexists; split; reflexivity.
  - unfold download_route, res_download.
    repeat case_match; cbn in *; try discriminate;
      try reflexivity; eexists; split; reflexivity.
  - unfold delete_route.
    repeat case_match; cbn in *; try discriminate;
      try reflexivity; eexists; split; reflexivity.
Qed.

End Routes.

(** ** The theorems at work on the concrete deployment *)

Module Instances.
Import Js Path Scenario Deployment.


Lemma stored_names_pairwise_distinct_witness :
  List.NoDup [(1700000000000, "report.txt"); (1700000000001, "report.txt");
              (1700000000000, "notes.txt")]
  /\ List.NoDup [storage_filename 1700000000000 "report.txt";
                 storage_filename 1700000000001 "report.txt";
                 storage_filename 1700000000000 "notes.txt"].
Proof.
  assert (List.NoDup [(1700000000000, "report.txt"); (1700000000001, "report.txt");
                      (1700000000000, "notes.txt")]) as Hputs.
  { repeat constructor; cbn; intuition discriminate. }
  split; [exact Hputs|].
  exact (stored_names_pairwise_distinct _ Hputs).
Defined.

Lemma anonymous_requests_denied_witness :
  cert_subject no_certificate = None
  /\ status (reply (list_route dirname no_faults store_with_report no_certificate)) = 401
  /\ effects (list_route dirname no_faults store_with_report no_certificate) = []
  /\ disk_after (list_route dirname no_faults store_with_report no_certificate)
     = store_with_report.
Proof.
  split; [reflexivity|].
  apply (anonymous_requests_denied dirname no_faults store_with_report
           no_certificate).
  reflexivity.
Defined.

Lemma traversal_names_rejected_witness :
  includes "../../etc/passwd" ".." = true
  /\ status (reply (download_route dirname no_faults store_with_report
                      "../../etc/passwd" alice)) = 400
  /\ status (reply (delete_route dirname no_faults store_with_report
                      "../../etc/passwd" no_certificate)) = 400.
Proof.
  split; [reflexivity|]. split.
  - destruct (traversal_names_rejected dirname no_faults store_with_report
                "../../etc/passwd" alice eq_refl) as [[H _] _].
    now rewrite H.
  - destruct (traversal_names_rejected dirname no_faults store_with_report
                "../../etc/passwd" no_certificate eq_refl) as [_ [H _]].
    now rewrite H.
Defined.

Lemma store_calls_stay_within_root_witness :
  isAbsolute dirname = true
  /\ Forall (fun c => within (UPLOAD_PATH dirname) (fs_call_path c) = true)
       (fs_calls (effects (delete_route dirname no_faults store_with_report
                             "1700000000000-report.txt" alice))).
Proof.
  split; [reflexivity|].
  apply (store_calls_stay_within_root dirname eq_refl no_faults store_with_report
           "1700000000000-report.txt" alice).
Defined.

Lemma get_not_found_iff_nothing_there_witness :
  includes "nothing.txt" ".." = false
  /\ cert_subject alice = Some {| CN := Some "alice" |}
  /\ (status (reply (download_route dirname no_faults store_with_report
                       "nothing.txt" alice)) = 404
      <-> Fs.stat store_with_report (join [UPLOAD_PATH dirname; "nothing.txt"]) = None).
Proof.
  split; [reflexivity|]. split; [reflexivity|].
  apply (get_not_found_iff_nothing_there dirname no_faults store_with_report
           "nothing.txt" alice {| CN := Some "alice" |} eq_refl eq_refl).
Defined.

Lemma escaping_names_rejected_witness :
  isAbsolute dirname = true
  /\ within (UPLOAD_PATH dirname) (join [UPLOAD_PATH dirname; "../secret.pem"]) = false
  /\ status (reply (download_request dirname no_faults store_with_report
                      "../secret.pem" alice)) = 400
  /\ status (reply (delete_request dirname no_faults store_with_report
                      "../secret.pem" alice)) = 400.
Proof.
  split; [reflexivity|]. split; [reflexivity|].
  destruct (proj1 (escaping_names_rejected dirname eq_refl no_faults
                     store_with_report "../secret.pem" alice))
    as (_ & Hget & Hdel & _); [reflexivity|].
  split; assumption.
Defined.

Lemma plain_names_looked_up_below_root_witness :
  isAbsolute dirname = true
  /\ "reports/q1.txt" <> ""
  /\ includes "reports/q1.txt" ".." = false
  /\ is_Some (cert_subject alice)
  /\ store_with_subdirectory
       !! (resolve (UPLOAD_PATH dirname) ++ split_sep "reports/q1.txt")
     = Some (RegularFile eleven_bytes)
  /\ join [UPLOAD_PATH dirname; "reports/q1.txt"] = "/srv/uploads/reports/q1.txt"
  /\ reply (download_route dirname no_faults store_with_subdirectory
              "reports/q1.txt" alice)
     = {| status := 200; payload := Attachment "q1.txt" eleven_bytes |}
  /\ disk_after (delete_route dirname no_faults store_with_subdirectory
                   "reports/q1.txt" alice)
     = delete ["srv"; "uploads"; "reports"; "q1.txt"] store_with_subdirectory.
Proof.
  assert (Forall (fun piece => kept piece = true) (split_sep "reports/q1.txt"))
    as Hkept by (repeat constructor).
  assert (store_with_subdirectory
            !! (resolve (UPLOAD_PATH dirname) ++ split_sep "reports/q1.txt")
          = Some (RegularFile eleven_bytes)) as Hfile by (vm_compute; reflexivity).
  split; [reflexivity|]. split; [discriminate|]. split; [reflexivity|].
  split; [eexists; reflexivity|]. split; [exact Hfile|].
  destruct (plain_names_looked_up_below_root dirname eq_refl no_faults
              store_with_subdirectory "reports/q1.txt" alice
              ltac:(discriminate) eq_refl)
    as (_ & _ & _ & _ & Hliteral & _ & _ & Hfound).
  split; [rewrite Hliteral; [reflexivity | exact Hkept]|].
  destruct (Hfound ltac:(eexists; reflexivity) Hkept eleven_bytes Hfile)
    as [Hget Hdel].
  split; [apply Hget; reflexivity|].
  apply Hdel. reflexivity.
Defined.

End Instances.

(** ** Where the code departs from the specification *)

Module Departures.
Import Js Path Scenario.


(** Against C2: without peer identity, a Get of a name with [".."] is
    answered 400 rather than 401, and a Put is answered 401 only after
    multer has written the upload into the store. *)
Lemma anonymous_request_not_always_unauthorized :
  cert_subject no_certificate = None
  /\ status (reply (download_route dirname no_faults store_with_report
                      "../secret.pem" no_certificate)) = 400
  /\ (let o := upload_route dirname no_faults empty_store 1700000000000
                 (Some ("report.txt", ten_bytes)) no_certificate in
      status (reply o) = 401
      /\ empty_store !! ["srv"; "uploads"; "1700000000000-report.txt"] = None
      /\ disk_after o !! ["srv"; "uploads"; "1700000000000-report.txt"]
         = Some (RegularFile ten_bytes)).
Proof. repeat split; vm_compute; reflexivity. Qed.

(** Against C5: a rejected List leaves no record at all. *)
Lemma rejected_list_leaves_no_record :
  let o := list_route dirname no_faults store_with_report no_certificate in
  status (reply o) = 401 /\ console_lines (effects o) = [].
Proof. split; reflexivity. Qed.

(** C7 fails on the download route (and likewise on list and delete): with
    an empty CN the upload route names the peer [Unknown Client], while the
    download route writes the raw CN, and [undefined] when there is none. *)
Theorem download_names_peer_by_raw_CN :
  console_lines (effects (upload_route dirname no_faults empty_store 1700000000000
                            (Some ("report.txt", ten_bytes)) (with_CN (Some ""))))
  = ["[UPLOAD] File uploaded by secure client. CN: Unknown Client"]
  /\ console_lines (effects (download_route dirname no_faults store_with_report
                               "1700000000000-report.txt" (with_CN (Some ""))))
     = ["[DOWNLOAD] Client  downloading file: 1700000000000-report.txt"]
  /\ console_lines (effects (download_route dirname no_faults store_with_report
                               "1700000000000-report.txt" (with_CN None)))
     = ["[DOWNLOAD] Client undefined downloading file: 1700000000000-report.txt"].
Proof. repeat split; vm_compute; reflexivity. Qed.

(** Against C8: the store root is a directory, not a regular file, yet a Get
    of ["."] is not answered 404. *)
Lemma get_of_directory_is_not_not_found :
  includes "." ".." = false
  /\ Fs.stat empty_store (join [UPLOAD_PATH dirname; "."]) = Some Directory
  /\ status (reply (download_route dirname no_faults empty_store "." alice)) = 500.
Proof. repeat split; vm_compute; reflexivity. Qed.

(** Against C9: a Get or a Delete for the empty target name is not answered
    400: no route matches, and Express answers 404 without running a
    handler. *)
Lemma empty_name_not_rejected :
  (let o := download_request dirname no_faults store_with_report "" alice in
   status (reply o) = 404 /\ effects o = [])
  /\ (let o := delete_request dirname no_faults store_with_report "" alice in
      status (reply o) = 404 /\ effects o = []
      /\ disk_after o = store_with_report).
Proof. repeat split. Qed.

End Departures.

(** ** More facts about names, paths and the disk *)

Module StoreFacts.
Import Js JsFacts Path PathFacts NumberFacts.

(** A string without separator is a single piece. *)
Lemma no_sep_atom (s : string) : includes s "/" = false -> split_sep s = [s].
Proof.
  induction s as [|c s IH]; [reflexivity|].
  cbn [includes split_sep]. intros [Hpre Hrest]%orb_false_iff.
  destruct (Ascii.eqb_spec c "/") as [->|_].
  - exfalso. enough (String.prefix "/" (String "/" s) = true) by congruence.
    apply prefix_iff. now exists s.
  - now rewrite (IH Hrest).
Qed.

(** A stored name starts with a digit or a minus sign. *)
Lemma storage_filename_head (now : Z) (original : string) :
  exists c rest, storage_filename now original = String c rest
                 /\ digit_or_dash c = true.
Proof.
  unfold storage_filename.
  destruct (number_to_string_shape now) as (ds & Hds & Hne & [-> | ->]).
  - destruct ds as [|c ds]; [contradiction|]. exists c. eexists.
    split; [reflexivity|]. cbn [all_chars] in Hds.
    apply andb_true_iff in Hds as [Hc _]. unfold digit_or_dash. now rewrite Hc.
  - exists "-"%char. eexists. split; reflexivity.
Qed.

(** Hence it is kept by [path.join], and is not the parent directory. *)
Lemma storage_filename_kept (now : Z) (original : string) :
  kept (storage_filename now original) = true
  /\ storage_filename now original <> "..".
Proof.
  destruct (storage_filename_head now original) as (c & rest & -> & Hc).
  apply digit_or_dash_plain in Hc as [Hdot _]. split.
  - unfold kept.
    destruct (String.eqb_spec (String c rest) ""); [discriminate|].
    destruct (String.eqb_spec (String c rest) ".") as [[= -> _]|];
      [contradiction | reflexivity].
  - intros [= -> _]. contradiction.
Qed.

(** [resolve_join] from the pieces of the name rather than its text. *)
Lemma resolve_join_pieces (root name : string) :
  isAbsolute root = true -> ~ In ".." (split_sep name) ->
  resolve (join [root; name]) = resolve root ++ List.filter kept (split_sep name).
Proof.
  intros Habs Hno. destruct (isAbsolute_cons root Habs) as [rest Hroot].
  unfold join. cbn [List.filter].
  replace (String.eqb root "") with false by now rewrite Hroot.
  cbn [negb]. destruct (String.eqb_spec name "") as [->|Hname]; cbn [negb].
  - cbn [String.concat]. rewrite resolve_normalize by assumption.
    now rewrite List.app_nil_r.
  - change (String.concat "/" [root; name]) with (root +:+ "/" +:+ name).
    rewrite resolve_normalize
      by (rewrite Hroot; apply prefix_iff; eexists; reflexivity).
    now apply resolve_append.
Qed.

(** A single kept piece is appended to the root as it is. *)
Lemma join_single_piece (root name : string) :
  isAbsolute root = true ->
  resolve root <> [] ->
  root = "/" +:+ String.concat "/" (resolve root) ->
  split_sep name = [name] -> kept name = true -> name <> ".." ->
  join [root; name] = root +:+ "/" +:+ name
  /\ resolve (join [root; name]) = resolve root ++ [name].
Proof.
  intros Habs Hne Hroot Hatom Hkept Hdots.
  assert (~ In ".." (split_sep name)) as Hno.
  { rewrite Hatom. intros [H|[]]. now apply Hdots. }
  split.
  - assert (exists r, root = String "/" r) as [r Hr] by (eexists; exact Hroot).
    assert (name <> "") as Hname by (intros ->; discriminate).
    unfold join. cbn [List.filter].
    replace (String.eqb root "") with false by now rewrite Hr.
    replace (String.eqb name "") with false
      by (symmetry; now apply String.eqb_neq).
    cbn [negb].
    change (String.concat "/" [root; name]) with (root +:+ "/" +:+ name).
    unfold normalize, normalizeString.
    replace (isAbsolute (root +:+ "/" +:+ name)) with true
      by (symmetry; apply prefix_iff; rewrite Hr; eexists; reflexivity).
    replace (String.eqb (root +:+ "/" +:+ name) "") with false by now rewrite Hr.
    cbn [negb]. fold (resolve (root +:+ "/" +:+ name)).
    rewrite resolve_append by assumption.
    rewrite Hatom. cbn [List.filter]. rewrite Hkept.
    rewrite concat_app by (assumption || discriminate).
    cbn [String.concat].
    rewrite (ends_with_sep_app root ("/" +:+ name)) by discriminate.
    rewrite (ends_with_sep_app "/" name) by assumption.
    rewrite kept_pieces_no_trailing_sep
      by (rewrite Hatom; constructor; [assumption | constructor]).
    destruct (String.eqb_spec (String.concat "/" (resolve root) +:+ "/" +:+ name) "")
      as [E|_].
    + destruct (String.concat "/" (resolve root)); discriminate.
    + rewrite JsFacts.app_empty_r. rewrite Hroot at 2. reflexivity.
  - rewrite resolve_join_pieces by assumption.
    rewrite Hatom. cbn [List.filter]. now rewrite Hkept.
Qed.

(** The base name of a single non-empty piece is that piece. *)
Lemma basename_atom (s : string) :
  split_sep s = [s] -> s <> "" -> basename s = s.
Proof.
  intros Hatom Hne. unfold basename. rewrite Hatom. cbn [List.filter].
  now rewrite (proj2 (String.eqb_neq _ _) Hne).
Qed.

Lemma storage_filename_nonempty (now : Z) (original : string) :
  String.eqb (storage_filename now original) "" = false.
Proof.
  destruct (storage_filename_head now original) as (c & rest & -> & _).
  reflexivity.
Qed.

Lemma stat_insert_regular (d : disk) (p : string) (content : list Byte.byte) :
  ends_with_sep p = false ->
  Fs.stat (<[resolve p := RegularFile content]> d) p = Some (RegularFile content).
Proof.
  intros Hend. unfold Fs.stat. now rewrite lookup_insert_eq, Hend.
Qed.

Lemma stat_delete (d : disk) (p : string) :
  Fs.stat (delete (resolve p) d) p = None.
Proof. unfold Fs.stat. now rewrite lookup_delete_eq. Qed.

Lemma stat_regular_lookup (d : disk) (p : string) (content : list Byte.byte) :
  Fs.stat d p = Some (RegularFile content) ->
  d !! resolve p = Some (RegularFile content) /\ ends_with_sep p = false.
Proof.
  unfold Fs.stat. destruct (d !! resolve p) as [[c|]|]; [|discriminate..].
  destruct (ends_with_sep p); [discriminate|]. now intros [= ->].
Qed.

Lemma strip_prefix_iff (pre l rest : list string) :
  Fs.strip_prefix pre l = Some rest <-> l = pre ++ rest.
Proof.
  revert l. induction pre as [|x pre IH]; intros l; cbn [Fs.strip_prefix app].
  - split; congruence.
  - destruct l as [|y l]; [split; discriminate|].
    destruct (String.eqb_spec x y) as [->|Hne].
    + rewrite IH. split; congruence.
    + split; [discriminate | congruence].
Qed.

Lemma child_of_iff (dir entry : list string) (name : string) :
  Fs.child_of dir entry = Some name <-> entry = dir ++ [name].
Proof.
  unfold Fs.child_of.
  destruct (Fs.strip_prefix dir entry) as [rest|] eqn:E.
  - apply strip_prefix_iff in E as ->. split.
    + destruct rest as [|x [|y rest]]; congruence.
    + intros ->%app_inv_head. reflexivity.
  - split; [discriminate|]. intros ->.
    rewrite (proj2 (strip_prefix_iff dir (dir ++ [name]) [name]) eq_refl) in E.
    discriminate.
Qed.

(** The names a directory read gives: the entries directly in it, each
    once. *)
Lemma children_exact (d : disk) (dir : list string) :
  let names := omap (Fs.child_of dir) (map_to_list d).*1 in
  NoDup names /\ forall name, name ∈ names <-> is_Some (d !! (dir ++ [name])).
Proof.
  intros names. split.
  - subst names. pose proof (NoDup_fst_map_to_list d) as Hnd.
    induction Hnd as [|k ks Hk _ IH]; cbn [omap list_omap]; [constructor|].
    destruct (Fs.child_of dir k) as [name|] eqn:E; [|assumption].
    constructor; [|assumption].
    intros (k' & Hin & E')%list_elem_of_omap.
    apply child_of_iff in E, E'. congruence.
  - intros name. subst names. rewrite list_elem_of_omap. split.
    + intros (k & Hin & E). apply child_of_iff in E as ->.
      apply list_elem_of_fmap in Hin as ([k v] & -> & Hin).
      apply elem_of_map_to_list in Hin. cbn [fst]. eauto.
    + intros [v Hv]. exists (dir ++ [name]). split.
      * apply list_elem_of_fmap. exists (dir ++ [name], v).
        split; [reflexivity|]. now apply elem_of_map_to_list.
      * now apply child_of_iff.
Qed.

End StoreFacts.

(** ** How the routes compose *)

Section Custody.
Import Js JsFacts Path PathFacts NumberFacts StoreFacts.

Variable dirname : string.
Hypothesis dirname_absolute : isAbsolute dirname = true.

Lemma UPLOAD_PATH_no_trailing_sep : ends_with_sep (UPLOAD_PATH dirname) = false.
Proof.
  destruct (UPLOAD_PATH_canonical dirname dirname_absolute) as [Hne Hcan].
  pose proof (resolve_entries (UPLOAD_PATH dirname)) as Hent.
  rewrite Hcan.
  assert (String.concat "/" (resolve (UPLOAD_PATH dirname)) <> "") as Hc.
  { intros E. now apply concat_entries_nonempty in E. }
  rewrite (ends_with_sep_app "/" _ Hc).
  apply kept_pieces_no_trailing_sep.
  rewrite split_concat; [| assumption |].
  - eapply Forall_impl; [exact Hent|]. now intros ? (_ & ? & _).
  - eapply Forall_impl; [exact Hent|]. now intros ? (? & _).
Qed.

(** Where a separator-free upload lands. *)
Lemma upload_path_flat (now : Z) (original : string) :
  includes original "/" = false ->
  let s := storage_filename now original in
  join [UPLOAD_PATH dirname; s] = UPLOAD_PATH dirname +:+ "/" +:+ s
  /\ resolve (join [UPLOAD_PATH dirname; s]) = resolve (UPLOAD_PATH dirname) ++ [s].
Proof.
  intros Hsep s.
  destruct (UPLOAD_PATH_canonical dirname dirname_absolute) as [Hne Hcan].
  destruct (storage_filename_kept now original) as [Hk Hd].
  apply join_single_piece; try assumption.
  - now apply UPLOAD_PATH_absolute.
  - apply no_sep_atom. subst s.
    now rewrite (storage_filename_includes now original "/" "") by auto.
Qed.

(** What a Put answered 200 has done. *)
Lemma upload_ok_inv io d now original content clientCert :
  status (reply (upload_route dirname io d now (Some (original, content)) clientCert))
  = 200 ->
  let fp := join [UPLOAD_PATH dirname; storage_filename now original] in
  is_Some (cert_subject clientCert)
  /\ disk_after (upload_route dirname io d now (Some (original, content)) clientCert)
     = <[resolve fp := RegularFile content]> d
  /\ ends_with_sep fp = false
  /\ d !! removelast (resolve fp) = Some Directory
  /\ d !! resolve fp <> Some Directory.
Proof.
  unfold upload_route, upload_single, Fs.writeFile, storage_destination,
    upload_handler.
  repeat case_match; simplify_eq; cbn; intros; try discriminate;
    repeat split; eauto; try congruence;
    match goal with
    | H : _ || _ = false |- _ => now apply orb_false_iff in H
    end.
Qed.

(** What any Put may have done to the disk. *)
Lemma upload_disk_cases io d now part clientCert :
  let o := upload_route dirname io d now part clientCert in
  disk_after o = d
  \/ exists original content,
       part = Some (original, content)
       /\ let fp := join [UPLOAD_PATH dirname; storage_filename now original] in
          disk_after o = <[resolve fp := RegularFile content]> d
          /\ d !! removelast (resolve fp) = Some Directory
          /\ d !! resolve fp <> Some Directory.
Proof.
  unfold upload_route, upload_single, Fs.writeFile, storage_destination,
    upload_handler.
  repeat case_match; simplify_eq; cbn; auto;
    right; do 2 eexists; (split; [reflexivity|]); repeat split; congruence.
Qed.

(** What any Delete may have done to the disk. *)
Lemma delete_disk_cases io d name clientCert :
  let o := delete_route dirname io d name clientCert in
  let fp := join [UPLOAD_PATH dirname; name] in
  (status (reply o) <> 200 /\ disk_after o = d)
  \/ (status (reply o) = 200 /\ includes name ".." = false
      /\ is_Some (cert_subject clientCert)
      /\ (exists content, d !! resolve fp = Some (RegularFile content))
      /\ disk_after o = delete (resolve fp) d).
Proof.
  unfold delete_route, Fs.unlinkSync.
  destruct (includes name "..") eqn:Hinc; [left; split; [discriminate | reflexivity]|].
  destruct (cert_subject clientCert) as [subj|];
    [|left; split; [discriminate | reflexivity]].
  destruct (Fs.existsSync d _); [|left; split; [discriminate | reflexivity]].
  destruct (Fs.stat d _) as [[content|]|] eqn:Hstat;
    try (left; split; [discriminate | reflexivity]).
  destruct (unlink_fault io _); [left; split; [discriminate | reflexivity]|].
  right. apply stat_regular_lookup in Hstat as [Hl _].
  repeat split; eauto.
Qed.

(** *** Put, then Get *)

(** X1: what a successful Put stored is what a later Get of the stored name
    streams back, as an attachment named by the base name of the stored
    name, which is the stored name itself when the original name has no
    separator. *)
Theorem put_then_get
    (io io' : io_faults) (d : disk) (now : Z) (original : string)
    (content : list Byte.byte) (clientCert clientCert' : option certificate) :
  let put := upload_route dirname io d now (Some (original, content)) clientCert in
  let storedName := storage_filename now original in
  status (reply put) = 200 ->
  includes original ".." = false ->
  is_Some (cert_subject clientCert') ->
  send_fault io' (join [UPLOAD_PATH dirname; storedName]) = None ->
  reply (download_route dirname io' (disk_after put) storedName clientCert')
  = {| status := 200; payload := Attachment (basename storedName) content |}
  /\ (includes original "/" = false -> basename storedName = storedName).
Proof.
  intros put storedName Hok Hdots [subj' Hsubj'] Hsend.
  destruct (upload_ok_inv _ _ _ _ _ _ Hok) as (_ & Hdisk & Hend & _).
  fold put in Hdisk. rewrite Hdisk.
  assert (includes storedName ".." = false) as Hinc.
  { subst storedName.
    now rewrite (storage_filename_includes now original "." ".") by auto. }
  split.
  - unfold download_route. rewrite Hinc, Hsubj'.
    unfold Fs.existsSync, res_download.
    rewrite stat_insert_regular by assumption.
    subst storedName. now rewrite Hsend, storage_filename_nonempty.
  - intros Hsep. subst storedName. apply basename_atom.
    + apply no_sep_atom.
      now rewrite (storage_filename_includes now original "/" "") by auto.
    + intros E. pose proof (storage_filename_nonempty now original) as H.
      rewrite E in H. discriminate.
Qed.

(** X2: a Put whose stored name includes the two-dot sequence succeeds like
    any other, and the file is on the disk, but no Get and no Delete of that
    stored name is ever accepted. *)
Theorem dotted_upload_out_of_reach
    (io io' : io_faults) (d d' : disk) (now : Z) (original : string)
    (content : list Byte.byte) (clientCert clientCert' : option certificate) :
  let put := upload_route dirname io d now (Some (original, content)) clientCert in
  let storedName := storage_filename now original in
  status (reply put) = 200 ->
  includes original ".." = true ->
  disk_after put !! resolve (join [UPLOAD_PATH dirname; storedName])
  = Some (RegularFile content)
  /\ status (reply (download_route dirname io' d' storedName clientCert')) = 400
  /\ status (reply (delete_route dirname io' d' storedName clientCert')) = 400.
Proof.
  intros put storedName Hok Hdots.
  destruct (upload_ok_inv _ _ _ _ _ _ Hok) as (_ & Hdisk & _).
  fold put in Hdisk. split; [rewrite Hdisk; apply lookup_insert_eq|].
  assert (includes storedName ".." = true) as Hinc.
  { subst storedName.
    now rewrite (storage_filename_includes now original "." ".") by auto. }
  unfold download_route, delete_route. rewrite Hinc. split; reflexivity.
Qed.

(** X3: a Put does not look for an earlier file of the same stored name.
    When the same original name arrives again in the same millisecond, the
    second Put succeeds as well (given an identity and no write fault) and
    its content replaces the first; nothing else on the disk changes. *)
Theorem same_name_same_millisecond_overwrites
    (io1 io2 : io_faults) (d : disk) (now : Z) (original : string)
    (first second : list Byte.byte) (cert1 cert2 : option certificate) :
  let put1 := upload_route dirname io1 d now (Some (original, first)) cert1 in
  let put2 := upload_route dirname io2 (disk_after put1) now
                (Some (original, second)) cert2 in
  let fp := join [UPLOAD_PATH dirname; storage_filename now original] in
  status (reply put1) = 200 ->
  is_Some (cert_subject cert2) ->
  write_fault io2 fp = false ->
  status (reply put2) = 200
  /\ disk_after put2 !! resolve fp = Some (RegularFile second)
  /\ disk_after put2 = <[resolve fp := RegularFile second]> d.
Proof.
  intros put1 put2 fp Hok [subj Hsubj] Hfault.
  destruct (upload_ok_inv _ _ _ _ _ _ Hok) as (_ & Hdisk & Hend & Hparent & Hdir).
  fold put1 fp in Hdisk, Hend, Hparent, Hdir.
  assert (removelast (resolve fp) <> resolve fp) as Hne.
  { intros E. rewrite E in Hparent. contradiction. }
  subst put2. rewrite Hdisk.
  unfold upload_route, upload_single, Fs.writeFile, storage_destination,
    upload_handler.
  fold fp. rewrite lookup_insert_ne, Hparent, lookup_insert_eq by congruence.
  rewrite Hfault, Hend. cbn. rewrite Hsubj. cbn.
  repeat split; [apply lookup_insert_eq | apply insert_insert_eq].
Qed.

(** *** List *)

(** X4: for a caller with an identity, List answers 200 exactly when the
    store root is a directory that can be read, and then with the names of
    the entries directly in the root, each once; entries further down are
    not listed. *)
Theorem list_names_direct_entries
    (io : io_faults) (d : disk) (clientCert : option certificate) :
  is_Some (cert_subject clientCert) ->
  let o := list_route dirname io d clientCert in
  let root := resolve (UPLOAD_PATH dirname) in
  (status (reply o) = 200
   <-> d !! root = Some Directory /\ readdir_fault io (UPLOAD_PATH dirname) = false)
  /\ (status (reply o) = 200 ->
      exists files,
        payload (reply o) = JsonArray files
        /\ NoDup files
        /\ forall name, name ∈ files <-> is_Some (d !! (root ++ [name]))).
Proof.
  intros [subj Hsubj] o root. subst o. unfold list_route, Fs.readdirSync.
  rewrite Hsubj. fold root.
  destruct (d !! root) as [[content|]|] eqn:Hroot; cbn [reply status payload].
  - split; [split; [discriminate | intros [[=] _]] | discriminate].
  - destruct (readdir_fault io (UPLOAD_PATH dirname)); cbn [reply status payload].
    + split; [split; [discriminate | intros [_ [=]]] | discriminate].
    + split; [split; auto|]. intros _. eexists. split; [reflexivity|].
      apply children_exact.
  - split; [split; [discriminate | intros [[=] _]] | discriminate].
Qed.

(** X5: after a successful Put of a file whose original name has no
    separator, a List that can read the root names the stored file exactly
    once. *)
Theorem put_then_list
    (io io' : io_faults) (d : disk) (now : Z) (original : string)
    (content : list Byte.byte) (clientCert clientCert' : option certificate) :
  let put := upload_route dirname io d now (Some (original, content)) clientCert in
  let storedName := storage_filename now original in
  status (reply put) = 200 ->
  includes original "/" = false ->
  is_Some (cert_subject clientCert') ->
  readdir_fault io' (UPLOAD_PATH dirname) = false ->
  exists files,
    reply (list_route dirname io' (disk_after put) clientCert')
    = {| status := 200; payload := JsonArray files |}
    /\ count_occ String.string_dec files storedName = 1%nat.
Proof.
  intros put storedName Hok Hsep [subj Hsubj] Hfault.
  destruct (upload_ok_inv _ _ _ _ _ _ Hok) as (_ & Hdisk & _ & Hparent & _).
  destruct (upload_path_flat now original Hsep) as [_ Hkey].
  fold put in Hdisk. fold storedName in Hkey, Hparent, Hdisk.
  rewrite Hkey in Hparent, Hdisk. rewrite removelast_last in Hparent.
  rewrite Hdisk. unfold list_route, Fs.readdirSync. rewrite Hsubj.
  rewrite lookup_insert_ne, Hparent, Hfault
    by (intros E; apply (f_equal length) in E; rewrite length_app in E;
        cbn in E; lia).
  eexists. split; [reflexivity|].
  match goal with |- count_occ _ ?l _ = _ =>
    destruct (children_exact
                (<[resolve (UPLOAD_PATH dirname) ++ [storedName]
                   := RegularFile content]> d)
                (resolve (UPLOAD_PATH dirname))) as [Hnd Hin]
  end.
  apply NoDup_count_occ'; [now apply NoDup_ListNoDup|].
  apply list_elem_of_In, Hin. rewrite lookup_insert_eq. eauto.
Qed.

(** *** Delete *)

(** X6: a Delete answered 200 removed exactly the target, which was a
    regular file: every other entry of the disk is as before, and a Get or
    a second Delete of the same name is then answered 404. *)
Theorem delete_then_gone
    (io io' : io_faults) (d : disk) (name : string)
    (clientCert clientCert' : option certificate) :
  let del := delete_route dirname io d name clientCert in
  let fp := join [UPLOAD_PATH dirname; name] in
  status (reply del) = 200 ->
  (exists content, d !! resolve fp = Some (RegularFile content))
  /\ disk_after del !! resolve fp = None
  /\ (forall k, k <> resolve fp -> disk_after del !! k = d !! k)
  /\ (is_Some (cert_subject clientCert') ->
      status (reply (download_route dirname io' (disk_after del) name clientCert')) = 404
      /\ status (reply (delete_route dirname io' (disk_after del) name clientCert')) = 404).
Proof.
  intros del fp Hok.
  destruct (delete_disk_cases io d name clientCert)
    as [[Hne _] | (_ & Hinc & _ & Hfile & Hdisk)]; [contradiction|].
  fold del fp in Hdisk, Hfile. rewrite Hdisk.
  split; [assumption|]. split; [apply lookup_delete_eq|].
  split; [intros k Hk; now apply lookup_delete_ne|].
  intros [subj Hsubj]. unfold download_route, delete_route.
  rewrite Hinc, Hsubj. fold fp. unfold Fs.existsSync.
  rewrite stat_delete. split; reflexivity.
Qed.

(** X7: a Delete that is not answered 200 leaves the disk as it was, and no
    Delete at all removes a directory: the store root in particular
    survives a Delete of ["."]. *)
Theorem delete_spares_directories
    (io : io_faults) (d : disk) (name : string) (clientCert : option certificate) :
  let del := delete_route dirname io d name clientCert in
  (status (reply del) <> 200 -> disk_after del = d)
  /\ (forall k, d !! k = Some Directory -> disk_after del !! k = Some Directory)
  /\ (d !! resolve (UPLOAD_PATH dirname) = Some Directory ->
      is_Some (cert_subject clientCert) ->
      status (reply (delete_route dirname io d "." clientCert)) = 500).
Proof.
  intros del.
  destruct (delete_disk_cases io d name clientCert)
    as [[Hne Hsame] | (Hok & _ & _ & [content Hfile] & Hdisk)];
    fold del in Hsame || fold del in Hdisk.
  - split; [auto|]. split; [now rewrite Hsame|].
    intros Hroot [subj Hsubj]. unfold delete_route, Fs.existsSync, Fs.unlinkSync.
    cbn [includes String.prefix orb]. rewrite Hsubj.
    assert (Fs.stat d (join [UPLOAD_PATH dirname; "."]) = Some Directory) as ->;
      [|reflexivity].
    unfold Fs.stat.
    rewrite resolve_join by (apply UPLOAD_PATH_absolute; assumption) || reflexivity.
    cbn [split_sep List.filter kept String.eqb Ascii.eqb Bool.eqb orb negb].
    now rewrite List.app_nil_r, Hroot.
  - split; [contradiction|]. split.
    + intros k Hk. rewrite Hdisk, lookup_delete_ne; [assumption | congruence].
    + intros Hroot [subj Hsubj]. unfold delete_route, Fs.existsSync, Fs.unlinkSync.
      cbn [includes String.prefix orb]. rewrite Hsubj.
      assert (Fs.stat d (join [UPLOAD_PATH dirname; "."]) = Some Directory) as ->;
        [|reflexivity].
      unfold Fs.stat.
      rewrite resolve_join by (apply UPLOAD_PATH_absolute; assumption) || reflexivity.
      cbn [split_sep List.filter kept String.eqb Ascii.eqb Bool.eqb orb negb].
      now rewrite List.app_nil_r, Hroot.
Qed.

(** *** Get *)

(** X8: whatever Get streams is the content of a regular file that the disk
    holds at the store root or below it, sent as an attachment named by the
    base name of the requested name, to a caller with an identity whose
    request did not include the two-dot sequence. *)
Theorem get_streams_store_files_only
    (io : io_faults) (d : disk) (name shown : string)
    (content : list Byte.byte) (clientCert : option certificate) :
  payload (reply (download_route dirname io d name clientCert))
  = Attachment shown content ->
  (name <> "" -> shown = basename name)
  /\ is_Some (cert_subject clientCert)
  /\ includes name ".." = false
  /\ exists k, d !! k = Some (RegularFile content)
               /\ starts_with (resolve (UPLOAD_PATH dirname)) k = true.
Proof.
  unfold download_route, Fs.existsSync, res_download.
  destruct (includes name "..") eqn:Hinc; [discriminate|].
  destruct (cert_subject clientCert) as [subj|]; [|discriminate].
  destruct (Fs.stat d _) as [[c|]|] eqn:Hstat; cbn [reply payload];
    try discriminate.
  destruct (send_fault io _) as [[|]|]; try discriminate.
  intros [= <- <-]. apply stat_regular_lookup in Hstat as [Hl _].
  split; [|repeat split; eauto].
  - intros Hname. now rewrite (proj2 (String.eqb_neq _ _) Hname).
  - eexists. split; [exact Hl|].
    rewrite resolve_join by (apply UPLOAD_PATH_absolute; assumption) || assumption.
    apply starts_with_app.
Qed.

(** *** Requests in sequence *)

(** What one request may have done to the disk: nothing, one regular file
    written where no directory was, or one regular file removed. *)
Lemma serve_disk_cases io d r clientCert :
  let d' := disk_after (serve dirname io d r clientCert) in
  d' = d
  \/ (exists k content, d !! k <> Some Directory
                        /\ d' = <[k := RegularFile content]> d)
  \/ (exists k content, d !! k = Some (RegularFile content) /\ d' = delete k d).
Proof.
  destruct r as [now part| |name|name|]; cbn [serve].
  - destruct (upload_disk_cases io d now part clientCert)
      as [H | (original & content & _ & H & _ & Hdir)]; [now left|].
    right. left. eauto.
  - left. unfold list_route. repeat case_match; reflexivity.
  - left. unfold download_route. repeat case_match; reflexivity.
  - destruct (delete_disk_cases io d name clientCert)
      as [[_ H] | (_ & _ & _ & [content Hfile] & H)]; [now left|].
    right. right. eauto.
  - now left.
Qed.

(** Requests whose uploads have separator-free names change nothing
    outside the store. *)
Lemma serve_disk_outside io d r clientCert k :
  plain_upload r ->
  starts_with (resolve (UPLOAD_PATH dirname)) k = false ->
  disk_after (serve dirname io d r clientCert) !! k = d !! k.
Proof.
  intros Hplain Hout.
  destruct r as [now part| |name|name|]; cbn [serve].
  - destruct (upload_disk_cases io d now part clientCert)
      as [H | (original & content & -> & H & _)]; [now rewrite H|].
    cbn in Hplain. destruct (upload_path_flat now original Hplain) as [_ Hkey].
    cbn zeta in H. rewrite H, Hkey. apply lookup_insert_ne.
    intros <-. now rewrite starts_with_app in Hout.
  - unfold list_route. repeat case_match; reflexivity.
  - unfold download_route. repeat case_match; reflexivity.
  - destruct (delete_disk_cases io d name clientCert)
      as [[_ H] | (_ & Hinc & _ & _ & H)]; [now rewrite H|].
    cbn zeta in H. rewrite H. apply lookup_delete_ne.
    intros <-.
    rewrite resolve_join in Hout
      by (apply UPLOAD_PATH_absolute; assumption) || assumption.
    now rewrite starts_with_app in Hout.
  - reflexivity.
Qed.

(** X9: no sequence of requests creates, removes or replaces a directory:
    the directories of the disk are the same at the end as at the start. *)
Theorem directories_never_change
    (rs : list (io_faults * request * option certificate)) (d : disk)
    (k : list string) :
  serve_all dirname d rs !! k = Some Directory <-> d !! k = Some Directory.
Proof.
  revert d. induction rs as [|[[io r] clientCert] rs IH]; intros d; [reflexivity|].
  cbn [serve_all]. rewrite IH.
  destruct (serve_disk_cases io d r clientCert)
    as [-> | [(k' & content & Hdir & ->) | (k' & content & Hfile & ->)]];
    [reflexivity| |].
  - destruct (decide (k' = k)) as [->|Hk].
    + rewrite lookup_insert_eq. split; [discriminate | contradiction].
    + now rewrite lookup_insert_ne.
  - destruct (decide (k' = k)) as [->|Hk].
    + rewrite lookup_delete_eq, Hfile. split; discriminate.
    + now rewrite lookup_delete_ne.
Qed.

(** X10: as long as uploads come with separator-free original names, no
    sequence of requests changes anything that is not at the store root or
    below it. *)
Theorem outside_the_store_nothing_changes
    (rs : list (io_faults * request * option certificate)) (d : disk)
    (k : list string) :
  Forall (fun x => plain_upload (snd (fst x))) rs ->
  starts_with (resolve (UPLOAD_PATH dirname)) k = false ->
  serve_all dirname d rs !! k = d !! k.
Proof.
  intros Hplain Hout. revert d.
  induction Hplain as [|[[io r] clientCert] rs Hr _ IH]; intros d; [reflexivity|].
  cbn [serve_all]. rewrite IH. now apply serve_disk_outside.
Qed.

(** X11: without a peer identity the health check is the only request that
    is answered 200. *)
Theorem only_health_check_serves_anonymous
    (io : io_faults) (d : disk) (r : request) (clientCert : option certificate) :
  cert_subject clientCert = None ->
  (status (reply (serve dirname io d r clientCert)) = 200 <-> r = GetRoot).
Proof.
  intros Hanon. destruct r as [now part| |name|name|]; cbn [serve];
    unfold upload_route, upload_single, upload_handler, list_route,
      download_route, delete_route, root_route;
    rewrite ?Hanon; repeat case_match; cbn [reply status];
    split; intros; simplify_eq; try discriminate; reflexivity.
Qed.

(** *** Start-up *)

(** What a start-up that reached [listen] has read and left behind. *)
Lemma startup_listen_cases bf d port opts console d' :
  startup dirname bf d = Listen port opts console d' ->
  port = 3000
  /\ FsBoot.readFileSync bf d (join [KEYS_PATH dirname; "server-key.pem"])
     = Some (key opts)
  /\ FsBoot.readFileSync bf d (join [KEYS_PATH dirname; "server-cert.pem"])
     = Some (cert opts)
  /\ FsBoot.readFileSync bf d (join [KEYS_PATH dirname; "ca-cert.pem"])
     = Some (ca opts)
  /\ requestCert opts = true /\ rejectUnauthorized opts = true
  /\ exists listening,
       (Fs.existsSync d (UPLOAD_PATH dirname) = true
        /\ d' = d /\ console = listening)
       \/ (Fs.existsSync d (UPLOAD_PATH dirname) = false
           /\ d !! resolve (UPLOAD_PATH dirname) = None
           /\ d' = <[resolve (UPLOAD_PATH dirname) := Directory]> d
           /\ console = ConsoleLog ("Created directory: " +:+ UPLOAD_PATH dirname)
                        :: listening).
Proof.
  unfold startup, FsBoot.mkdirSync.
  destruct (FsBoot.readFileSync bf d (join [KEYS_PATH dirname; "server-key.pem"]))
    as [serverKey|]; [|discriminate].
  destruct (FsBoot.readFileSync bf d (join [KEYS_PATH dirname; "server-cert.pem"]))
    as [serverCert|]; [|discriminate].
  destruct (FsBoot.readFileSync bf d (join [KEYS_PATH dirname; "ca-cert.pem"]))
    as [caCert|]; [|discriminate].
  destruct (Fs.existsSync d (UPLOAD_PATH dirname)) eqn:Hex.
  - intros [= <- <- <- <-]. repeat split. eexists. left. repeat split.
  - destruct (d !! resolve (UPLOAD_PATH dirname)) eqn:Hroot; [discriminate|].
    destruct (d !! removelast (resolve (UPLOAD_PATH dirname))) as [[?|]|];
      try discriminate.
    destruct (mkdir_fault bf (UPLOAD_PATH dirname)); [discriminate|].
    intros [= <- <- <- <-]. repeat split. eexists. right. repeat split.
Qed.

Lemma readFileSync_lookup bf d p content :
  FsBoot.readFileSync bf d p = Some content ->
  d !! resolve p = Some (RegularFile content).
Proof.
  unfold FsBoot.readFileSync.
  destruct (Fs.stat d p) as [[c|]|] eqn:Hstat; try discriminate.
  destruct (read_fault bf p); [discriminate|]. intros [= <-].
  now apply stat_regular_lookup in Hstat.
Qed.

Lemma readFileSync_insert_other bf d p k v content :
  FsBoot.readFileSync bf d p = Some content ->
  d !! k = None ->
  FsBoot.readFileSync bf (<[k := v]> d) p = Some content.
Proof.
  intros Hread Hk. pose proof (readFileSync_lookup _ _ _ _ Hread) as Hl.
  unfold FsBoot.readFileSync, Fs.stat in *.
  rewrite lookup_insert_ne by congruence. assumption.
Qed.

(** X12: a start-up that reaches [listen] has read the three PEM files as
    regular files and passes their contents on with [requestCert] and
    [rejectUnauthorized] set, listens on port 3000, and leaves a disk on
    which the store root exists and nothing else has changed. *)
Theorem startup_postcondition
    (bf : boot_faults) (d d' : disk) (port : Z) (opts : ssl_options)
    (console : list effect) :
  startup dirname bf d = Listen port opts console d' ->
  port = 3000
  /\ requestCert opts = true /\ rejectUnauthorized opts = true
  /\ d !! resolve (join [KEYS_PATH dirname; "server-key.pem"])
     = Some (RegularFile (key opts))
  /\ d !! resolve (join [KEYS_PATH dirname; "server-cert.pem"])
     = Some (RegularFile (cert opts))
  /\ d !! resolve (join [KEYS_PATH dirname; "ca-cert.pem"])
     = Some (RegularFile (ca opts))
  /\ Fs.existsSync d' (UPLOAD_PATH dirname) = true
  /\ (forall k, k <> resolve (UPLOAD_PATH dirname) -> d' !! k = d !! k).
Proof.
  intros Hboot.
  destruct (startup_listen_cases _ _ _ _ _ _ Hboot)
    as (Hport & Hkey & Hcert & Hca & Hreq & Hrej & listening & Hstore).
  repeat split; try assumption; try (eapply readFileSync_lookup; eassumption).
  - destruct Hstore as [(Hex & -> & _) | (_ & _ & -> & _)]; [assumption|].
    unfold Fs.existsSync, Fs.stat. now rewrite lookup_insert_eq.
  - intros k Hk.
    destruct Hstore as [(_ & -> & _) | (_ & _ & -> & _)]; [reflexivity|].
    now apply lookup_insert_ne.
Qed.

(** X13: starting again on the disk a start-up left behind reaches [listen]
    with the same options and the same disk, and does not announce a new
    directory. *)
Theorem startup_twice
    (bf : boot_faults) (d d' : disk) (port : Z) (opts : ssl_options)
    (console : list effect) :
  startup dirname bf d = Listen port opts console d' ->
  exists listening,
    startup dirname bf d' = Listen port opts listening d'
    /\ (console = listening
        \/ console = ConsoleLog ("Created directory: " +:+ UPLOAD_PATH dirname)
                     :: listening).
Proof.
  unfold startup.
  destruct (FsBoot.readFileSync bf d (join [KEYS_PATH dirname; "server-key.pem"]))
    as [serverKey|] eqn:Hkey; [|discriminate].
  destruct (FsBoot.readFileSync bf d (join [KEYS_PATH dirname; "server-cert.pem"]))
    as [serverCert|] eqn:Hcert; [|discriminate].
  destruct (FsBoot.readFileSync bf d (join [KEYS_PATH dirname; "ca-cert.pem"]))
    as [caCert|] eqn:Hca; [|discriminate].
  destruct (Fs.existsSync d (UPLOAD_PATH dirname)) eqn:Hex.
  - intros [= <- <- <- <-]. rewrite Hkey, Hcert, Hca, Hex.
    eexists. split; [reflexivity | now left].
  - unfold FsBoot.mkdirSync.
    destruct (d !! resolve (UPLOAD_PATH dirname)) eqn:Hroot; [discriminate|].
    destruct (d !! removelast (resolve (UPLOAD_PATH dirname))) as [[?|]|];
      try discriminate.
    destruct (mkdir_fault bf (UPLOAD_PATH dirname)); [discriminate|].
    intros [= <- <- <- <-].
    rewrite (readFileSync_insert_other _ _ _ _ Directory _ Hkey Hroot).
    rewrite (readFileSync_insert_other _ _ _ _ Directory _ Hcert Hroot).
    rewrite (readFileSync_insert_other _ _ _ _ Directory _ Hca Hroot).
    assert (Fs.existsSync (<[resolve (UPLOAD_PATH dirname) := Directory]> d)
              (UPLOAD_PATH dirname) = true) as ->.
    { unfold Fs.existsSync, Fs.stat. now rewrite lookup_insert_eq. }
    eexists. split; [reflexivity | now right].
Qed.

(** X14: the start-up code tests that something exists at the store root,
    not that it is a directory. With a regular file there it reaches
    [listen] without touching the disk, and then every List of a caller
    with an identity is answered 500 and every Put of a file with a
    separator-free name ends in Express's error handling, with the disk
    unchanged. *)
Theorem regular_file_in_place_of_store
    (d : disk) (content : list Byte.byte) :
  d !! resolve (UPLOAD_PATH dirname) = Some (RegularFile content) ->
  (forall bf console, startup dirname bf d <> Throw console)
  /\ (forall bf port opts console d',
        startup dirname bf d = Listen port opts console d' -> d' = d)
  /\ (forall io clientCert,
        is_Some (cert_subject clientCert) ->
        status (reply (list_route dirname io d clientCert)) = 500)
  /\ (forall io now original body clientCert,
        includes original "/" = false ->
        let put := upload_route dirname io d now (Some (original, body)) clientCert in
        reply put = {| status := 500; payload := NextError |}
        /\ disk_after put = d).
Proof.
  intros Hfile. split; [|split; [|split]].
  - intros bf console. unfold startup.
    assert (Fs.existsSync d (UPLOAD_PATH dirname) = true) as ->.
    { unfold Fs.existsSync, Fs.stat.
      now rewrite Hfile, UPLOAD_PATH_no_trailing_sep. }
    repeat case_match; discriminate.
  - intros bf port opts console d' Hboot.
    destruct (startup_listen_cases _ _ _ _ _ _ Hboot)
      as (_ & _ & _ & _ & _ & _ & listening & [(_ & -> & _) | (_ & Hnone & _)]);
      [reflexivity | congruence].
  - intros io clientCert [subj Hsubj].
    unfold list_route, Fs.readdirSync. now rewrite Hsubj, Hfile.
  - intros io now original body clientCert Hsep put. subst put.
    destruct (upload_path_flat now original Hsep) as [_ Hkey].
    unfold upload_route, upload_single, Fs.writeFile, storage_destination.
    rewrite Hkey, removelast_last, Hfile. split; reflexivity.
Qed.

(** *** Health check *)

(** X15: the health check answers 200 to every peer without touching the
    disk or the console, and its page says that the peer is authenticated
    exactly when the certificate has a subject. *)
Theorem health_check_tells_authentication
    (d : disk) (clientCert : option certificate) :
  let o := root_route d clientCert in
  status (reply o) = 200 /\ effects o = [] /\ disk_after o = d
  /\ exists html,
       payload (reply o) = Send html
       /\ (includes html "You are authenticated via mTLS as: " = true
           <-> is_Some (cert_subject clientCert)).
Proof.
  unfold root_route. cbn [reply effects disk_after status payload].
  repeat split. eexists. split; [reflexivity|].
  destruct (cert_subject clientCert) as [subj|].
  - split; [eauto|]. intros _. apply includes_iff.
    exists "<h1>Secure Server is running successfully. ".
    eexists. reflexivity.
  - split; [intros H; vm_compute in H; discriminate | intros [? [=]]].
Qed.

End Custody.

(** ** The composition theorems at work on the concrete deployment *)

Module CustodyInstances.
Import Js Path Scenario Deployment.

Lemma put_then_get_witness :
  status (reply (upload_route dirname no_faults empty_store 1700000000000
                   (Some ("report.txt", ten_bytes)) alice)) = 200
  /\ includes "report.txt" ".." = false
  /\ is_Some (cert_subject (with_CN None))
  /\ reply (download_route dirname no_faults
              (disk_after (upload_route dirname no_faults empty_store 1700000000000
                             (Some ("report.txt", ten_bytes)) alice))
              (storage_filename 1700000000000 "report.txt") (with_CN None))
     = {| status := 200;
          payload := Attachment (storage_filename 1700000000000 "report.txt")
                       ten_bytes |}.
Proof.
  split; [vm_compute; reflexivity|]. split; [reflexivity|].
  split; [eexists; reflexivity|].
  apply (put_then_get dirname no_faults no_faults empty_store 1700000000000
           "report.txt" ten_bytes alice (with_CN None));
    [vm_compute; reflexivity | reflexivity | eexists; reflexivity | reflexivity].
Defined.

Lemma dotted_upload_out_of_reach_witness :
  status (reply (upload_route dirname no_faults empty_store 1700000000000
                   (Some ("notes..txt", ten_bytes)) alice)) = 200
  /\ includes "notes..txt" ".." = true
  /\ status (reply (download_route dirname no_faults store_with_report
                      (storage_filename 1700000000000 "notes..txt") alice)) = 400
  /\ status (reply (delete_route dirname no_faults store_with_report
                      (storage_filename 1700000000000 "notes..txt") alice)) = 400.
Proof.
  split; [vm_compute; reflexivity|]. split; [reflexivity|].
  destruct (dotted_upload_out_of_reach dirname no_faults no_faults empty_store
              store_with_report 1700000000000 "notes..txt" ten_bytes alice alice)
    as (_ & Hget & Hdel); [vm_compute; reflexivity | reflexivity |].
  split; assumption.
Defined.

Lemma same_name_same_millisecond_overwrites_witness :
  status (reply (upload_route dirname no_faults empty_store 1700000000000
                   (Some ("report.txt", ten_bytes)) alice)) = 200
  /\ is_Some (cert_subject alice)
  /\ status (reply (upload_route dirname no_faults
                      (disk_after (upload_route dirname no_faults empty_store
                                     1700000000000 (Some ("report.txt", ten_bytes))
                                     alice))
                      1700000000000 (Some ("report.txt", eleven_bytes)) alice)) = 200
  /\ disk_after (upload_route dirname no_faults
                   (disk_after (upload_route dirname no_faults empty_store
                                  1700000000000 (Some ("report.txt", ten_bytes))
                                  alice))
                   1700000000000 (Some ("report.txt", eleven_bytes)) alice)
     !! resolve (join [UPLOAD_PATH dirname;
                       storage_filename 1700000000000 "report.txt"])
     = Some (RegularFile eleven_bytes).
Proof.
  split; [vm_compute; reflexivity|]. split; [eexists; reflexivity|].
  destruct (same_name_same_millisecond_overwrites dirname no_faults no_faults
              empty_store 1700000000000 "report.txt" ten_bytes eleven_bytes
              alice alice)
    as (Hok & Hnew & _);
    [vm_compute; reflexivity | eexists; reflexivity | reflexivity |].
  split; assumption.
Defined.

Lemma list_names_direct_entries_witness :
  is_Some (cert_subject alice)
  /\ (status (reply (list_route dirname no_faults store_with_report alice)) = 200
      <-> store_with_report !! resolve (UPLOAD_PATH dirname) = Some Directory
          /\ readdir_fault no_faults (UPLOAD_PATH dirname) = false).
Proof.
  split; [eexists; reflexivity|].
  apply (list_names_direct_entries dirname no_faults store_with_report alice).
  eexists; reflexivity.
Defined.

Lemma put_then_list_witness :
  isAbsolute dirname = true
  /\ status (reply (upload_route dirname no_faults empty_store 1700000000000
                      (Some ("report.txt", ten_bytes)) alice)) = 200
  /\ includes "report.txt" "/" = false
  /\ is_Some (cert_subject alice)
  /\ exists files,
       reply (list_route dirname no_faults
                (disk_after (upload_route dirname no_faults empty_store
                               1700000000000 (Some ("report.txt", ten_bytes)) alice))
                alice)
       = {| status := 200; payload := JsonArray files |}
       /\ count_occ String.string_dec files
            (storage_filename 1700000000000 "report.txt") = 1%nat.
Proof.
  split; [reflexivity|]. split; [vm_compute; reflexivity|].
  split; [reflexivity|]. split; [eexists; reflexivity|].
  apply (put_then_list dirname eq_refl no_faults no_faults empty_store
           1700000000000 "report.txt" ten_bytes alice alice);
    [vm_compute; reflexivity | reflexivity | eexists; reflexivity | reflexivity].
Defined.

Lemma delete_then_gone_witness :
  status (reply (delete_route dirname no_faults store_with_report
                   "1700000000000-report.txt" alice)) = 200
  /\ is_Some (cert_subject alice)
  /\ status (reply (download_route dirname no_faults
                      (disk_after (delete_route dirname no_faults store_with_report
                                     "1700000000000-report.txt" alice))
                      "1700000000000-report.txt" alice)) = 404
  /\ status (reply (delete_route dirname no_faults
                      (disk_after (delete_route dirname no_faults store_with_report
                                     "1700000000000-report.txt" alice))
                      "1700000000000-report.txt" alice)) = 404.
Proof.
  split; [vm_compute; reflexivity|]. split; [eexists; reflexivity|].
  destruct (delete_then_gone dirname no_faults no_faults store_with_report
              "1700000000000-report.txt" alice alice)
    as (_ & _ & _ & Hgone); [vm_compute; reflexivity|].
  apply Hgone. eexists; reflexivity.
Defined.

Lemma delete_spares_directories_witness :
  isAbsolute dirname = true
  /\ store_with_report !! resolve (UPLOAD_PATH dirname) = Some Directory
  /\ is_Some (cert_subject alice)
  /\ status (reply (delete_route dirname no_faults store_with_report "." alice)) = 500
  /\ disk_after (delete_route dirname no_faults store_with_report "." alice)
     !! ["srv"; "uploads"] = Some Directory.
Proof.
  split; [reflexivity|]. split; [vm_compute; reflexivity|].
  split; [eexists; reflexivity|].
  destruct (delete_spares_directories dirname eq_refl no_faults store_with_report
              "." alice) as (_ & Hdirs & Hroot).
  split.
  - apply Hroot; [vm_compute; reflexivity | eexists; reflexivity].
  - apply Hdirs. vm_compute; reflexivity.
Defined.

Lemma get_streams_store_files_only_witness :
  isAbsolute dirname = true
  /\ payload (reply (download_route dirname no_faults store_with_report
                       "1700000000000-report.txt" alice))
     = Attachment "1700000000000-report.txt" ten_bytes
  /\ exists k, store_with_report !! k = Some (RegularFile ten_bytes)
               /\ starts_with (resolve (UPLOAD_PATH dirname)) k = true.
Proof.
  split; [reflexivity|]. split; [vm_compute; reflexivity|].
  destruct (get_streams_store_files_only dirname eq_refl no_faults
              store_with_report "1700000000000-report.txt"
              "1700000000000-report.txt" ten_bytes alice)
    as (_ & _ & _ & Hk); [vm_compute; reflexivity | exact Hk].
Defined.

Lemma outside_the_store_nothing_changes_witness :
  isAbsolute dirname = true
  /\ Forall (fun x => plain_upload (snd (fst x))) busy_day
  /\ starts_with (resolve (UPLOAD_PATH dirname))
       ["srv"; "infra"; "openssl"; "server-key.pem"] = false
  /\ serve_all dirname booted_disk busy_day
       !! ["srv"; "infra"; "openssl"; "server-key.pem"]
     = booted_disk !! ["srv"; "infra"; "openssl"; "server-key.pem"].
Proof.
  assert (Forall (fun x => plain_upload (snd (fst x))) busy_day) as Hplain.
  { unfold busy_day. repeat constructor. }
  split; [reflexivity|]. split; [exact Hplain|]. split; [reflexivity|].
  apply (outside_the_store_nothing_changes dirname eq_refl busy_day booted_disk
           ["srv"; "infra"; "openssl"; "server-key.pem"] Hplain).
  reflexivity.
Defined.

Lemma only_health_check_serves_anonymous_witness :
  cert_subject no_certificate = None
  /\ (status (reply (serve dirname no_faults store_with_report GetFiles
                       no_certificate)) = 200
      <-> GetFiles = GetRoot).
Proof.
  split; [reflexivity|].
  apply (only_health_check_serves_anonymous dirname no_faults store_with_report
           GetFiles no_certificate).
  reflexivity.
Defined.

Lemma startup_postcondition_witness :
  startup dirname no_boot_faults fresh_disk
  = Listen 3000 booted_options booted_console booted_disk
  /\ requestCert booted_options = true
  /\ rejectUnauthorized booted_options = true
  /\ fresh_disk !! resolve (join [KEYS_PATH dirname; "ca-cert.pem"])
     = Some (RegularFile (ca booted_options))
  /\ Fs.existsSync booted_disk (UPLOAD_PATH dirname) = true.
Proof.
  assert (startup dirname no_boot_faults fresh_disk
          = Listen 3000 booted_options booted_console booted_disk) as Hboot
    by (vm_compute; reflexivity).
  split; [exact Hboot|].
  destruct (startup_postcondition dirname no_boot_faults fresh_disk booted_disk
              3000 booted_options booted_console Hboot)
    as (_ & Hreq & Hrej & _ & _ & Hca & Hstore & _).
  repeat split; assumption.
Defined.

Lemma startup_twice_witness :
  startup dirname no_boot_faults fresh_disk
  = Listen 3000 booted_options booted_console booted_disk
  /\ exists listening,
       startup dirname no_boot_faults booted_disk
       = Listen 3000 booted_options listening booted_disk.
Proof.
  assert (startup dirname no_boot_faults fresh_disk
          = Listen 3000 booted_options booted_console booted_disk) as Hboot
    by (vm_compute; reflexivity).
  split; [exact Hboot|].
  destruct (startup_twice dirname no_boot_faults fresh_disk booted_disk
              3000 booted_options booted_console Hboot) as (listening & H & _).
  now exists listening.
Defined.

Lemma regular_file_in_place_of_store_witness :
  isAbsolute dirname = true
  /\ blocked_disk !! resolve (UPLOAD_PATH dirname)
     = Some (RegularFile (pem "not a directory"))
  /\ is_Some (cert_subject alice)
  /\ status (reply (list_route dirname no_faults blocked_disk alice)) = 500.
Proof.
  split; [reflexivity|]. split; [vm_compute; reflexivity|].
  split; [eexists; reflexivity|].
  destruct (regular_file_in_place_of_store dirname eq_refl blocked_disk
              (pem "not a directory")) as (_ & _ & Hlist & _);
    [vm_compute; reflexivity|].
  apply Hlist. eexists; reflexivity.
Defined.

End CustodyInstances.

(** ** Spellings of a name, and Put against Delete *)

Section Spellings.
Import Js JsFacts Path PathFacts NumberFacts StoreFacts.

Variable dirname : string.
Hypothesis dirname_absolute : isAbsolute dirname = true.

(** [path.join(root, name)] is made of the entries of the root, the kept
    pieces of the name and the trailing separator of the name, nothing
    else. *)
Lemma join_by_pieces (root name : string) :
  isAbsolute root = true -> name <> "" -> ~ In ".." (split_sep name) ->
  join [root; name]
  = (let p := String.concat "/" (resolve root ++ List.filter kept (split_sep name)) in
     if String.eqb p "" then "/"
     else "/" +:+ p +:+ (if ends_with_sep name then "/" else "")).
Proof.
  intros Habs Hname Hno. destruct (isAbsolute_cons root Habs) as [r Hr].
  unfold join. cbn [List.filter].
  replace (String.eqb root "") with false by now rewrite Hr.
  replace (String.eqb name "") with false
    by (symmetry; now apply String.eqb_neq).
  cbn [negb].
  change (String.concat "/" [root; name]) with (root +:+ "/" +:+ name).
  unfold normalize, normalizeString.
  replace (isAbsolute (root +:+ "/" +:+ name)) with true
    by (symmetry; apply prefix_iff; rewrite Hr; eexists; reflexivity).
  replace (String.eqb (root +:+ "/" +:+ name) "") with false by now rewrite Hr.
  cbn [negb]. fold (resolve (root +:+ "/" +:+ name)).
  rewrite resolve_append by assumption.
  rewrite (ends_with_sep_app root ("/" +:+ name)) by discriminate.
  now rewrite (ends_with_sep_app "/" name) by assumption.
Qed.

(** X16: two spellings of a name that differ only in empty pieces and
    single-dot pieces ([a/b], [./a/b], [a//b], [a/./b]) and that agree on
    whether they end with a separator are joined to the same path: Get
    answers both with the same status and Delete does the same to the disk
    under either. (A trailing separator does matter: [x/] is not [x].) *)
Theorem same_file_under_many_spellings
    (io : io_faults) (d : disk) (name1 name2 : string)
    (clientCert : option certificate) :
  name1 <> "" -> name2 <> "" ->
  includes name1 ".." = false -> includes name2 ".." = false ->
  List.filter kept (split_sep name1) = List.filter kept (split_sep name2) ->
  ends_with_sep name1 = ends_with_sep name2 ->
  join [UPLOAD_PATH dirname; name1] = join [UPLOAD_PATH dirname; name2]
  /\ status (reply (download_route dirname io d name1 clientCert))
     = status (reply (download_route dirname io d name2 clientCert))
  /\ status (reply (delete_route dirname io d name1 clientCert))
     = status (reply (delete_route dirname io d name2 clientCert))
  /\ disk_after (delete_route dirname io d name1 clientCert)
     = disk_after (delete_route dirname io d name2 clientCert).
Proof.
  intros Hn1 Hn2 Hinc1 Hinc2 Hpieces Hend.
  assert (join [UPLOAD_PATH dirname; name1] = join [UPLOAD_PATH dirname; name2])
    as Hjoin.
  { pose proof (UPLOAD_PATH_absolute dirname dirname_absolute) as Habs.
    rewrite !join_by_pieces by (assumption || now apply no_dotdot_segments).
    now rewrite Hpieces, Hend. }
  split; [assumption|].
  unfold download_route, delete_route, res_download.
  rewrite Hinc1, Hinc2, Hjoin.
  repeat split; repeat case_match; reflexivity.
Qed.

(** X17: multer stores the upload before the handler looks at the peer. A
    Put with a file part whose write succeeded has put the content on the
    disk whether it is answered 200 or 401, and it is answered 200 exactly
    when the peer has an identity; no other entry of the disk changed. *)
Theorem put_stores_before_identity_check
    (io : io_faults) (d : disk) (now : Z) (original : string)
    (content : list Byte.byte) (clientCert : option certificate) :
  let put := upload_route dirname io d now (Some (original, content)) clientCert in
  let fp := join [UPLOAD_PATH dirname; storage_filename now original] in
  upload_single dirname io d now (Some (original, content)) <> None ->
  disk_after put !! resolve fp = Some (RegularFile content)
  /\ (forall k, k <> resolve fp -> disk_after put !! k = d !! k)
  /\ (status (reply put) = 200 <-> is_Some (cert_subject clientCert))
  /\ (status (reply put) = 401 <-> cert_subject clientCert = None).
Proof.
  intros put fp. subst put fp.
  unfold upload_route, upload_handler, upload_single, storage_destination.
  destruct (Fs.writeFile io d _ content) as [d'|] eqn:Hw; [|contradiction].
  intros _. cbn [reply status disk_after].
  assert (d' = <[resolve (join [UPLOAD_PATH dirname; storage_filename now original])
                 := RegularFile content]> d) as ->.
  { unfold Fs.writeFile in Hw. repeat case_match; congruence. }
  split; [|split].
  - destruct (cert_subject clientCert); apply lookup_insert_eq.
  - intros k Hk.
    destruct (cert_subject clientCert); now apply lookup_insert_ne.
  - destruct (cert_subject clientCert) as [subj|]; cbn [reply status].
    + split; split; eauto; discriminate.
    + split; split; try reflexivity; try discriminate. intros [? [=]].
Qed.

(** X18: a Put under a stored name that was free, followed by a Delete of
    that stored name, leaves the disk exactly as it was before the Put. *)
Theorem put_then_delete_restores
    (io io' : io_faults) (d : disk) (now : Z) (original : string)
    (content : list Byte.byte) (clientCert clientCert' : option certificate) :
  let put := upload_route dirname io d now (Some (original, content)) clientCert in
  let storedName := storage_filename now original in
  let del := delete_route dirname io' (disk_after put) storedName clientCert' in
  status (reply put) = 200 ->
  includes original ".." = false ->
  d !! resolve (join [UPLOAD_PATH dirname; storedName]) = None ->
  is_Some (cert_subject clientCert') ->
  unlink_fault io' (join [UPLOAD_PATH dirname; storedName]) = false ->
  status (reply del) = 200 /\ disk_after del = d.
Proof.
  intros put storedName del Hok Hdots Hfree [subj Hsubj] Hfault.
  destruct (upload_ok_inv dirname _ _ _ _ _ _ Hok) as (_ & Hdisk & Hend & _).
  fold put storedName in Hdisk, Hend.
  assert (includes storedName ".." = false) as Hinc.
  { subst storedName.
    now rewrite (storage_filename_includes now original "." ".") by auto. }
  subst del. rewrite Hdisk.
  unfold delete_route, Fs.existsSync, Fs.unlinkSync.
  rewrite Hinc, Hsubj, stat_insert_regular, Hfault by assumption.
  cbn [reply status disk_after]. split; [reflexivity|].
  now apply delete_insert_id.
Qed.

End Spellings.

Module SpellingInstances.
Import Js Path Scenario Deployment.

Lemma same_file_under_many_spellings_witness :
  isAbsolute dirname = true
  /\ "./1700000000000-report.txt" <> "" /\ "1700000000000-report.txt" <> ""
  /\ includes "./1700000000000-report.txt" ".." = false
  /\ includes "1700000000000-report.txt" ".." = false
  /\ List.filter kept (split_sep "./1700000000000-report.txt")
     = List.filter kept (split_sep "1700000000000-report.txt")
  /\ join [UPLOAD_PATH dirname; "./1700000000000-report.txt"]
     = join [UPLOAD_PATH dirname; "1700000000000-report.txt"]
  /\ disk_after (delete_route dirname no_faults store_with_report
                   "./1700000000000-report.txt" alice)
     = disk_after (delete_route dirname no_faults store_with_report
                     "1700000000000-report.txt" alice).
Proof.
  split; [reflexivity|]. split; [discriminate|]. split; [discriminate|].
  split; [reflexivity|]. split; [reflexivity|]. split; [reflexivity|].
  destruct (same_file_under_many_spellings dirname eq_refl no_faults
              store_with_report "./1700000000000-report.txt"
              "1700000000000-report.txt" alice)
    as (Hjoin & _ & _ & Hdisk);
    [discriminate | discriminate | reflexivity | reflexivity | reflexivity
    | reflexivity |].
  split; assumption.
Defined.

Lemma put_stores_before_identity_check_witness :
  upload_single dirname no_faults empty_store 1700000000000
    (Some ("report.txt", ten_bytes)) <> None
  /\ cert_subject no_certificate = None
  /\ status (reply (upload_route dirname no_faults empty_store 1700000000000
                      (Some ("report.txt", ten_bytes)) no_certificate)) = 401
  /\ disk_after (upload_route dirname no_faults empty_store 1700000000000
                   (Some ("report.txt", ten_bytes)) no_certificate)
     !! resolve (join [UPLOAD_PATH dirname;
                       storage_filename 1700000000000 "report.txt"])
     = Some (RegularFile ten_bytes).
Proof.
  assert (upload_single dirname no_faults empty_store 1700000000000
            (Some ("report.txt", ten_bytes)) <> None) as Hwritten
    by (vm_compute; discriminate).
  split; [exact Hwritten|]. split; [reflexivity|].
  destruct (put_stores_before_identity_check dirname no_faults empty_store
              1700000000000 "report.txt" ten_bytes no_certificate Hwritten)
    as (Hdisk & _ & _ & Hanon).
  split; [now apply Hanon | exact Hdisk].
Defined.

Lemma put_then_delete_restores_witness :
  status (reply (upload_route dirname no_faults empty_store 1700000000000
                   (Some ("report.txt", ten_bytes)) alice)) = 200
  /\ includes "report.txt" ".." = false
  /\ empty_store !! resolve (join [UPLOAD_PATH dirname;
                                  storage_filename 1700000000000 "report.txt"])
     = None
  /\ is_Some (cert_subject alice)
  /\ disk_after
       (delete_route dirname no_faults
          (disk_after (upload_route dirname no_faults empty_store 1700000000000
                         (Some ("report.txt", ten_bytes)) alice))
          (storage_filename 1700000000000 "report.txt") alice)
     = empty_store.
Proof.
  split; [vm_compute; reflexivity|]. split; [reflexivity|].
  split; [vm_compute; reflexivity|]. split; [eexists; reflexivity|].
  apply (put_then_delete_restores dirname no_faults no_faults empty_store
           1700000000000 "report.txt" ten_bytes alice alice);
    [vm_compute; reflexivity | reflexivity | vm_compute; reflexivity
    | eexists; reflexivity | reflexivity].
Defined.

End SpellingInstances.

(** ** The parser and the base names on examples *)

Module ParserChecks.
Import Scenario Deployment.

Example busboy_basename_examples :
  Multer.basename "sub/x.txt" = "x.txt"
  /\ Multer.basename "C:\docs\x.txt" = "x.txt"
  /\ Multer.basename "x.txt" = "x.txt"
  /\ Multer.basename "docs/.." = ""
  /\ Multer.basename "." = ""
  /\ Multer.basename "docs/" = "".
Proof. repeat split; reflexivity. Qed.

Example path_basename_examples :
  Path.basename "reports/q1.txt" = "q1.txt"
  /\ Path.basename "1700000000000-report.txt" = "1700000000000-report.txt"
  /\ Path.basename "reports/" = "reports"
  /\ Path.basename "/" = "".
Proof. repeat split; reflexivity. Qed.

(** A part without usable file name is skipped, and the route answers as
    for no file at all. *)
Example nameless_part_is_no_file :
  Multer.accept (Some ("docs/", ten_bytes)) = None
  /\ reply (upload_request dirname no_faults empty_store 1700000000000
              (Some ("docs/", ten_bytes)) alice)
     = {| status := 400; payload := Send "No file uploaded." |}.
Proof. split; reflexivity. Qed.

Example nested_name_is_flattened :
  reply (upload_request dirname no_faults empty_store 1700000000000
           (Some ("sub/x.txt", ten_bytes)) alice)
  = {| status := 200;
       payload := Json [("message", "File uploaded securely!");
                        ("filename", "1700000000000-x.txt");
                        ("clientCN", "alice")] |}.
Proof. vm_compute. reflexivity. Qed.

(** Whatever the client sends, the upload that reaches the storage has a
    separator-free name. *)
Lemma accepted_upload_is_plain (now : Z) (sent : option (string * list Byte.byte)) :
  plain_upload (PostUpload now (Multer.accept sent)).
Proof.
  cbn [plain_upload].
  destruct (Multer.accept sent) as [[original content]|] eqn:Hacc; [|exact I].
  now apply MulterFacts.accept_Some in Hacc as (_ & _ & _ & _ & Hslash & _).
Qed.

End ParserChecks.
